(** * Invoice server actions ([app/lib/actions.ts])

    A shallow embedding of the invoice form actions of the dashboard:
    the zod form schema, the three lenient actions [createInvoice],
    [updateInvoice], [deleteInvoice] and the older strict [createInvoice].

    JavaScript numbers are IEEE-754 binary64 values; they are modelled with
    the Standard Library's executable specification [spec_float]
    (precision 53, exponent bound 1024), so that [amount * 100] is the
    rounded product the runtime computes. *)

From Stdlib Require Import ZArith List String Ascii Bool Lia.
From Stdlib Require Import Floats.SpecFloat.
Import ListNotations.

Local Open Scope string_scope.
Local Open Scope Z_scope.

(** ** JavaScript numbers *)

Module JsNumber.

Definition number := spec_float.

Definition prec : Z := 53.
Definition emax : Z := 1024.


Definition NaN : number := S754_nan.
Definition zero : number := S754_zero false.

(** [x * y] *)
Definition mul (x y : number) : number := SFmul prec emax x y.

(** [x <= y] and [x < y]; both are false when an operand is NaN. *)
Definition leb (x y : number) : bool := SFleb x y.
Definition ltb (x y : number) : bool := SFltb x y.

(** [Number.isNaN] *)
Definition isNaN (x : number) : bool :=
  match x with S754_nan => true | _ => false end.

(** The value of an integer literal, rounded to nearest even. *)
Definition of_Z (z : Z) : number := binary_normalize prec emax z 0 false.

(** The number nearest to [(-1)^sign * d * 10^k] (ties to even): the value
    of a decimal literal with digits [d] and decimal exponent [k]. The
    digits of a literal are never negative. *)
Definition of_decimal (sign : bool) (d : Z) (k : Z) : number :=
  match d with
  | Z0 => S754_zero sign
  | Zneg _ => S754_nan
  | Zpos p =>
      match k with
      | Zneg q =>
          let '(m, e, l) := SFdiv_core_binary prec emax d 0 (Z.pow_pos 10 q) 0 in
          binary_round_aux prec emax sign m e l
      | _ => binary_round prec emax sign (Z.to_pos (d * 10 ^ k)) 0
      end
  end.

(** Whether the number is a mathematical integer ([Number.isInteger]). *)
Definition isInteger (x : number) : bool :=
  match x with
  | S754_zero _ => true
  | S754_finite _ m e =>
      if 0 <=? e then true
      else Z.eqb (Z.land (Zpos m) (Z.ones (- e))) 0
  | _ => false
  end.

Definition hundred : number := Eval vm_compute in of_Z 100.


(** [0 < x], as a proposition. *)
Definition positive_number (x : number) : Prop := ltb zero x = true.

End JsNumber.

Import JsNumber.

(** ** Strings as sequences of code units *)

Module JsString.

(** A string is read as its list of byte codes (UTF-8). *)
Definition codes (s : string) : list N :=
  map N_of_ascii (list_ascii_of_string s).

Fixpoint strip_prefix (p l : list N) : option (list N) :=
  match p, l with
  | [], _ => Some l
  | a :: p', b :: l' => if N.eqb a b then strip_prefix p' l' else None
  | _ :: _, [] => None
  end.

(** [StrWhiteSpaceChar]: TAB, LF, VT, FF, CR, SP, then the encodings of
    U+00A0, U+1680, U+2000..U+200A, U+2028, U+2029, U+202F, U+205F,
    U+3000 and U+FEFF. *)
Definition white_space : list (list N) :=
  ([[9]; [10]; [11]; [12]; [13]; [32];
    [194; 160]; [225; 154; 128];
    [226; 128; 128]; [226; 128; 129]; [226; 128; 130]; [226; 128; 131];
    [226; 128; 132]; [226; 128; 133]; [226; 128; 134]; [226; 128; 135];
    [226; 128; 136]; [226; 128; 137]; [226; 128; 138];
    [226; 128; 168]; [226; 128; 169]; [226; 128; 175];
    [226; 129; 159]; [227; 128; 128]; [239; 187; 191]])%N.

Fixpoint strip_any (ps : list (list N)) (l : list N) : option (list N) :=
  match ps with
  | [] => None
  | p :: ps' =>
      match strip_prefix p l with
      | Some r => Some r
      | None => strip_any ps' l
      end
  end.

(** White space is removed one character at a time; every removal shortens
    the text, so its length bounds the number of steps. *)
Fixpoint trim_start_fuel (ps : list (list N)) (fuel : nat) (l : list N) : list N :=
  match fuel with
  | O => l
  | S fuel' =>
      match strip_any ps l with
      | Some r => trim_start_fuel ps fuel' r
      | None => l
      end
  end.

Definition trimStart (l : list N) : list N :=
  trim_start_fuel white_space (List.length l) l.

Definition trimEnd (l : list N) : list N :=
  rev (trim_start_fuel (map (@rev N) white_space) (List.length l) (rev l)).

Definition trim (l : list N) : list N := trimEnd (trimStart l).

(** [split(sep)[0]] for a one-character separator: the text before the
    first occurrence of [sep], the whole string when there is none. *)
Fixpoint split_first (sep : ascii) (s : string) : string :=
  match s with
  | EmptyString => EmptyString
  | String c r => if Ascii.eqb c sep then EmptyString else String c (split_first sep r)
  end.

End JsString.

(** ** [Number(value)]: the coercion behind [z.coerce.number()] *)

Module Coercion.
Import JsString.

(** The value of the digit with code [c] in base [base], if it is one. *)
Definition digit_value (base c : N) : option Z :=
  let v : option N :=
    (if (48 <=? c) && (c <=? 57) then Some (c - 48)
     else if (97 <=? c) && (c <=? 102) then Some (c - 87)
     else if (65 <=? c) && (c <=? 70) then Some (c - 55)
     else None)%N in
  match v with
  | Some d => if (d <? base)%N then Some (Z.of_N d) else None
  | None => None
  end.

(** The longest prefix of digits, as digit values, and what follows it. *)
Fixpoint span_digits (base : N) (l : list N) : list Z * list N :=
  match l with
  | [] => ([], [])
  | c :: r =>
      match digit_value base c with
      | Some d => let '(ds, rest) := span_digits base r in (d :: ds, rest)
      | None => ([], l)
      end
  end.

Definition digits_value (base : Z) (ds : list Z) : Z :=
  fold_left (fun acc d => acc * base + d) ds 0.

Definition is_nil {A} (l : list A) : bool :=
  match l with [] => true | _ => false end.

(** [NonDecimalIntegerLiteral]: [0x], [0o] or [0b] and at least one digit. *)
Definition non_decimal (l : list N) : option number :=
  match l with
  | 48%N :: c :: r =>
      let base : option N :=
        (if (c =? 120) || (c =? 88) then Some 16
         else if (c =? 111) || (c =? 79) then Some 8
         else if (c =? 98) || (c =? 66) then Some 2
         else None)%N in
      match base with
      | Some b =>
          let '(ds, rest) := span_digits b r in
          if negb (is_nil ds) && is_nil rest
          then Some (of_Z (digits_value (Z.of_N b) ds))
          else None
      | None => None
      end
  | _ => None
  end.

(** [StrUnsignedDecimalLiteral], with the sign already read. *)
Definition unsigned_decimal (sign : bool) (l : list N) : number :=
  match strip_prefix (codes "Infinity") l with
  | Some [] => S754_infinity sign
  | _ =>
      let '(ip, r1) := span_digits 10 l in
      let '(fp, r2) :=
        match r1 with
        | 46%N :: r => span_digits 10 r
        | _ => ([], r1)
        end in
      if is_nil ip && is_nil fp then NaN
      else
        let d := digits_value 10 (ip ++ fp) in
        let k := - Z.of_nat (List.length fp) in
        match r2 with
        | [] => of_decimal sign d k
        | c :: r3 =>
            if ((c =? 101) || (c =? 69))%N then
              let '(esign, r4) :=
                match r3 with
                | 43%N :: r => (false, r)
                | 45%N :: r => (true, r)
                | _ => (false, r3)
                end in
              let '(ed, r5) := span_digits 10 r4 in
              if negb (is_nil ed) && is_nil r5 then
                let x := digits_value 10 ed in
                of_decimal sign d (k + (if esign then - x else x))
              else NaN
            else NaN
        end
  end.

(** [StringToNumber] *)
Definition StringToNumber (s : string) : number :=
  match trim (codes s) with
  | [] => zero
  | (c :: r) as l =>
      match non_decimal l with
      | Some x => x
      | None =>
          if (c =? 43)%N then unsigned_decimal false r
          else if (c =? 45)%N then unsigned_decimal true r
          else unsigned_decimal false l
      end
  end.

End Coercion.

(** ** Form data *)

(** A form entry is a string or an uploaded file; [get] answers [null]
    ([None]) for a name that is absent, and the first entry otherwise. *)
Inductive FormDataEntryValue :=
  | StringEntry (s : string)
  | FileEntry (name : string).

Definition FormData := list (string * FormDataEntryValue).

Fixpoint get (formData : FormData) (name : string) : option FormDataEntryValue :=
  match formData with
  | [] => None
  | (k, v) :: rest => if String.eqb k name then Some v else get rest name
  end.

(** [Number(v)] for what [get] can return: [null] is [+0], a string goes
    through [StringToNumber], a file object is [NaN]. *)
Definition Number (v : option FormDataEntryValue) : number :=
  match v with
  | None => zero
  | Some (StringEntry s) => Coercion.StringToNumber s
  | Some (FileEntry _) => NaN
  end.

(** ** The part of zod the schemas use *)

Module Zod.

Inductive ZodParsedType := pt_string | pt_nan | pt_number | pt_null | pt_object.

Definition parsedTypeName (t : ZodParsedType) : string :=
  match t with
  | pt_string => "string"
  | pt_nan => "nan"
  | pt_number => "number"
  | pt_null => "null"
  | pt_object => "object"
  end.

Definition getParsedType (v : option FormDataEntryValue) : ZodParsedType :=
  match v with
  | None => pt_null
  | Some (StringEntry _) => pt_string
  | Some (FileEntry _) => pt_object
  end.

Definition getParsedType_number (x : number) : ZodParsedType :=
  if isNaN x then pt_nan else pt_number.

Inductive ZodIssueCode := invalid_type | invalid_enum_value | too_small.

Record ZodIssue := {
  code : ZodIssueCode;
  path : list string;
  message : string
}.

(** A parse gives the parsed value or the issues found. *)
Inductive ParseReturn (T : Type) :=
  | OK (value : T)
  | INVALID (issues : list ZodIssue).
Arguments OK {T} value.
Arguments INVALID {T} issues.

Definition ZodType (T : Type) := list string -> option FormDataEntryValue -> ParseReturn T.

(** The message of an [invalid_type] issue: the schema's
    [invalid_type_error] when it has one, the default text otherwise.
    (The input is never [undefined] here, so [required_error] plays no
    part.) *)
Definition invalid_type_message (invalid_type_error : option string)
    (expected received : string) : string :=
  match invalid_type_error with
  | Some m => m
  | None => "Expected " ++ expected ++ ", received " ++ received
  end.

(** [util.joinValues]: each value in single quotes, joined by [" | "]. *)
Fixpoint joinValues (values : list string) : string :=
  match values with
  | [] => ""
  | [v] => "'" ++ v ++ "'"
  | v :: rest => "'" ++ v ++ "' | " ++ joinValues rest
  end.

(** [z.string({ invalid_type_error })] *)
Definition string_ (invalid_type_error : option string) : ZodType string :=
  fun path v =>
    match v with
    | Some (StringEntry s) => OK s
    | _ =>
        INVALID [{| code := invalid_type; path := path;
                    message := invalid_type_message invalid_type_error "string"
                                 (parsedTypeName (getParsedType v)) |}]
    end.

(** A check of a number schema: [.gt(value, { message })] is the [min]
    check that is not inclusive. *)
Record NumberCheck := {
  check_value : number;
  check_inclusive : bool;
  check_message : string
}.

Definition gt (value : number) (message : string) : NumberCheck :=
  {| check_value := value; check_inclusive := false; check_message := message |}.

(** One check: [tooSmall] is [data < value] for an inclusive bound and
    [data <= value] otherwise. *)
Definition run_check (path : list string) (data : number) (c : NumberCheck) : list ZodIssue :=
  let tooSmall :=
    if check_inclusive c then ltb data (check_value c) else leb data (check_value c) in
  if tooSmall
  then [{| code := too_small; path := path; message := check_message c |}]
  else [].

(** [z.coerce.number()] followed by its checks: the input goes through
    [Number]; NaN is an [invalid_type] issue and ends the parse, any other
    number is run through every check. *)
Definition coerce_number (checks : list NumberCheck) : ZodType number :=
  fun path v =>
    let data := Number v in
    match getParsedType_number data with
    | pt_number =>
        match flat_map (run_check path data) checks with
        | [] => OK data
        | issues => INVALID issues
        end
    | t =>
        INVALID [{| code := invalid_type; path := path;
                    message := invalid_type_message None "number" (parsedTypeName t) |}]
    end.

(** [z.enum(values, { invalid_type_error })]: an input that is not a
    string is an [invalid_type] issue; a string outside [values] is an
    [invalid_enum_value] issue, whose message is always the default one. *)
Definition enum (values : list string) (invalid_type_error : option string) : ZodType string :=
  fun path v =>
    match v with
    | Some (StringEntry s) =>
        if existsb (String.eqb s) values then OK s
        else
          INVALID [{| code := invalid_enum_value; path := path;
                      message := "Invalid enum value. Expected " ++ joinValues values
                                   ++ ", received '" ++ s ++ "'" |}]
    | _ =>
        INVALID [{| code := invalid_type; path := path;
                    message := invalid_type_message invalid_type_error (joinValues values)
                                 (parsedTypeName (getParsedType v)) |}]
    end.

Definition issues_of {T} (r : ParseReturn T) : list ZodIssue :=
  match r with OK _ => [] | INVALID issues => issues end.

(** [flatten().fieldErrors]: an object from the first path element of
    each issue to the messages of the issues under it. *)
Definition FieldErrors := list (string * list string).

Fixpoint push (key msg : string) (o : FieldErrors) : FieldErrors :=
  match o with
  | [] => [(key, [msg])]
  | (k, msgs) :: rest =>
      if String.eqb k key then (k, (msgs ++ [msg])%list) :: rest
      else (k, msgs) :: push key msg rest
  end.

Definition fieldErrors (issues : list ZodIssue) : FieldErrors :=
  fold_left (fun acc i =>
               match path i with
               | [] => acc
               | k :: _ => push k (message i) acc
               end) issues [].

(** Property access [o[key]]: [None] is [undefined]. *)
Fixpoint field (o : FieldErrors) (key : string) : option (list string) :=
  match o with
  | [] => None
  | (k, msgs) :: rest => if String.eqb k key then Some msgs else field rest key
  end.

End Zod.

(** ** The collaborators: database, console, cache and router *)

(** A row of the [invoices] table. *)
Record InvoiceRow := {
  row_id : string;
  row_customer_id : string;
  row_amount : number;
  row_status : string;
  row_date : string
}.

(** The three statements the actions send, with their parameters. *)
Inductive Statement :=
  | INSERT_INTO_invoices (customer_id : string) (amount : number) (status date : string)
  | UPDATE_invoices (customer_id : string) (amount : number) (status : string) (where_id : string)
  | DELETE_FROM_invoices (where_id : string).

(** What a statement does to the table when it succeeds; [new_id] is the
    identifier the store gives to an inserted row. *)
Definition execute (new_id : string) (st : Statement) (rows : list InvoiceRow) : list InvoiceRow :=
  match st with
  | INSERT_INTO_invoices c a s d =>
      (rows ++ [{| row_id := new_id; row_customer_id := c; row_amount := a;
                   row_status := s; row_date := d |}])%list
  | UPDATE_invoices c a s i =>
      map (fun r =>
             if String.eqb (row_id r) i
             then {| row_id := row_id r; row_customer_id := c; row_amount := a;
                     row_status := s; row_date := row_date r |}
             else r) rows
  | DELETE_FROM_invoices i =>
      filter (fun r => negb (String.eqb (row_id r) i)) rows
  end.

Record InvoiceFields := {
  customerId : string;
  amount : number;
  status : string
}.

Inductive Event :=
  | EvConsoleLog (label : string) (value : Zod.ParseReturn InvoiceFields)
  | EvConsoleError (text : string)
  | EvSql (st : Statement)
  | EvRevalidatePath (path : string)
  | EvRedirect (path : string).

(** The world an action runs in: the table, the identifiers the store hands
    out, the statements the database fails on, what
    [new Date().toISOString()] answers, and the calls made so far. *)
Record World := {
  invoices : list InvoiceRow;
  inserted : nat;
  uuid : nat -> string;
  fails : Statement -> bool;
  now_iso : string;
  trace : list Event
}.

Definition emit (ev : Event) (w : World) : World :=
  {| invoices := invoices w; inserted := inserted w; uuid := uuid w;
     fails := fails w; now_iso := now_iso w; trace := (trace w ++ [ev])%list |}.

Inductive Exn :=
  | DatabaseError
  | ZodError (issues : list Zod.ZodIssue)
  | NEXT_REDIRECT (path : string).

(** An action either returns a value or throws, and changes the world. *)
Definition Action (A : Type) := World -> (Exn + A) * World.

Definition ret {A} (a : A) : Action A := fun w => (inr a, w).

Definition bind {A B} (m : Action A) (k : A -> Action B) : Action B :=
  fun w =>
    match m w with
    | (inr a, w') => k a w'
    | (inl e, w') => (inl e, w')
    end.

Definition throw {A} (e : Exn) : Action A := fun w => (inl e, w).

(** [try { body } catch (error) { handler }] *)
Definition try_catch {A} (body : Action A) (handler : Exn -> Action A) : Action A :=
  fun w =>
    match body w with
    | (inr a, w') => (inr a, w')
    | (inl e, w') => handler e w'
    end.

Declare Scope action_scope.
Delimit Scope action_scope with action.
Notation "x <- m ;; k" := (bind m (fun x => k))
  (at level 61, m at next level, right associativity) : action_scope.
Notation "m ;; k" := (bind m (fun _ => k))
  (at level 61, right associativity) : action_scope.
Local Open Scope action_scope.

Definition console_log (label : string) (value : Zod.ParseReturn InvoiceFields) : Action unit :=
  fun w => (inr tt, emit (EvConsoleLog label value) w).

Definition console_error (text : string) : Action unit :=
  fun w => (inr tt, emit (EvConsoleError text) w).

(** [await sql`...`]: the statement is sent; it throws and leaves the table
    alone when the database fails it, and is executed otherwise. *)
Definition sql (st : Statement) : Action unit :=
  fun w =>
    let w1 := emit (EvSql st) w in
    if fails w st then (inl DatabaseError, w1)
    else
      (inr tt,
       {| invoices := execute (uuid w (inserted w)) st (invoices w);
          inserted := match st with
                      | INSERT_INTO_invoices _ _ _ _ => S (inserted w)
                      | _ => inserted w
                      end;
          uuid := uuid w; fails := fails w; now_iso := now_iso w;
          trace := trace w1 |}).

Definition revalidatePath (path : string) : Action unit :=
  fun w => (inr tt, emit (EvRevalidatePath path) w).

(** [redirect] never returns to its caller: it ends the request by
    throwing [NEXT_REDIRECT]. *)
Definition redirect {A} (path : string) : Action A :=
  fun w => (inl (NEXT_REDIRECT path), emit (EvRedirect path) w).

(** [new Date().toISOString()] *)
Definition toISOString : Action string := fun w => (inr (now_iso w), w).

(** ** Object schemas *)

Record FormSchemaShape := {
  shape_id : Zod.ZodType string;
  shape_customerId : Zod.ZodType string;
  shape_amount : Zod.ZodType number;
  shape_status : Zod.ZodType string;
  shape_date : Zod.ZodType string
}.

(** The shape left by [.omit({ id: true, date: true })]. *)
Record InvoiceShape := {
  s_customerId : Zod.ZodType string;
  s_amount : Zod.ZodType number;
  s_status : Zod.ZodType string
}.

Definition omit_id_date (s : FormSchemaShape) : InvoiceShape :=
  {| s_customerId := shape_customerId s; s_amount := shape_amount s;
     s_status := shape_status s |}.

(** The object literal the actions build from the form. *)
Record InvoiceInput := {
  in_customerId : option FormDataEntryValue;
  in_amount : option FormDataEntryValue;
  in_status : option FormDataEntryValue
}.

Definition read_form (formData : FormData) : InvoiceInput :=
  {| in_customerId := get formData "customerId";
     in_amount := get formData "amount";
     in_status := get formData "status" |}.

(** [schema.safeParse(input)]: every key of the shape is parsed, in the
    order of the shape, under its own name as path; the parse succeeds when
    no key has an issue. *)
Definition safeParse (schema : InvoiceShape) (input : InvoiceInput) : Zod.ParseReturn InvoiceFields :=
  let c := s_customerId schema ["customerId"] (in_customerId input) in
  let a := s_amount schema ["amount"] (in_amount input) in
  let s := s_status schema ["status"] (in_status input) in
  match c, a, s with
  | Zod.OK c', Zod.OK a', Zod.OK s' =>
      Zod.OK {| customerId := c'; amount := a'; status := s' |}
  | _, _, _ => Zod.INVALID (Zod.issues_of c ++ Zod.issues_of a ++ Zod.issues_of s)%list
  end.

(** [schema.parse(input)]: as [safeParse], but a failure is thrown. *)
Definition parse (schema : InvoiceShape) (input : InvoiceInput) : Action InvoiceFields :=
  match safeParse schema input with
  | Zod.OK data => ret data
  | Zod.INVALID issues => throw (ZodError issues)
  end.

(** The shape of [State]. *)
Record State := {
  errors : option Zod.FieldErrors;
  message : option string
}.

(** ** The actions with form feedback *)

Module Actions.

Definition FormSchema : FormSchemaShape :=
  {| shape_id := Zod.string_ None;
     shape_customerId := Zod.string_ (Some "Please select a customer.");
     shape_amount := Zod.coerce_number [Zod.gt zero "Please enter an amount greater than $0."];
     shape_status := Zod.enum ["pending"; "paid"] (Some "Please select an invoice status.");
     shape_date := Zod.string_ None |}.

Definition CreateInvoice := omit_id_date FormSchema.
Definition UpdateInvoice := omit_id_date FormSchema.

Definition createInvoice (prevState : State) (formData : FormData) : Action State :=
  let validatedFields := safeParse CreateInvoice (read_form formData) in
  console_log "validatedFields: " validatedFields ;;
  match validatedFields with
  | Zod.INVALID issues =>
      ret {| errors := Some (Zod.fieldErrors issues);
             message := Some "Missing Fields. Failed to Create Invoice." |}
  | Zod.OK data =>
      let amountInCents := mul (amount data) hundred in
      now <- toISOString ;;
      let date := JsString.split_first "T" now in
      try_catch
        (sql (INSERT_INTO_invoices (customerId data) amountInCents (status data) date))
        (fun _ => console_error "Database Error: Failed to Create Invoice.") ;;
      revalidatePath "/dashboard/invoices" ;;
      redirect "/dashboard/invoices"
  end.

Definition updateInvoice (id : string) (preState : State) (formData : FormData) : Action State :=
  let validatedFields := safeParse UpdateInvoice (read_form formData) in
  match validatedFields with
  | Zod.INVALID issues =>
      ret {| errors := Some (Zod.fieldErrors issues);
             message := Some "Missing Fields. Failed to Update Invoice." |}
  | Zod.OK data =>
      let amountInCents := mul (amount data) hundred in
      try_catch
        (sql (UPDATE_invoices (customerId data) amountInCents (status data) id))
        (fun _ => console_error "Database Error: Failed to Update Invoice.") ;;
      revalidatePath "/dashboard/invoices" ;;
      redirect "/dashboard/invoices"
  end.

Definition deleteInvoice (id : string) : Action unit :=
  try_catch
    (sql (DELETE_FROM_invoices id) ;;
     revalidatePath "/dashboard/invoices")
    (fun _ => console_error "Database Error: Failed to Delete Invoice.").

End Actions.

(** ** The older action without form feedback *)

Module StrictActions.

Definition FormSchema : FormSchemaShape :=
  {| shape_id := Zod.string_ None;
     shape_customerId := Zod.string_ None;
     shape_amount := Zod.coerce_number [];
     shape_status := Zod.enum ["pending"; "paid"] None;
     shape_date := Zod.string_ None |}.

Definition CreateInvoice := omit_id_date FormSchema.

Definition createInvoice (formData : FormData) : Action unit :=
  data <- parse CreateInvoice (read_form formData) ;;
  let amountInCents := mul (amount data) hundred in
  now <- toISOString ;;
  let date := JsString.split_first "T" now in
  sql (INSERT_INTO_invoices (customerId data) amountInCents (status data) date) ;;
  revalidatePath "/dashboard/invoices" ;;
  redirect "/dashboard/invoices".

End StrictActions.

(** A world with an empty table where every statement succeeds, and one
    where every statement fails. *)
Definition world0 : World :=
  {| invoices := []; inserted := 0; uuid := fun _ => "inv-0";
     fails := fun _ => false; now_iso := "2024-03-09T10:11:12.000Z"; trace := [] |}.

Definition world_down : World :=
  {| invoices := []; inserted := 0; uuid := fun _ => "inv-0";
     fails := fun _ => true; now_iso := "2024-03-09T10:11:12.000Z"; trace := [] |}.

Definition form (c a s : string) : FormData :=
  [("customerId", StringEntry c); ("amount", StringEntry a); ("status", StringEntry s)].

Definition state0 : State := {| errors := None; message := None |}.

(** The form [{customerId: "c1", amount: "15.00", status: "pending"}] and
    its validated fields. *)
Definition form0 : FormData := form "c1" "15.00" "pending".

Definition fields0 : InvoiceFields :=
  {| customerId := "c1"; amount := of_decimal false 1500 (-2); status := "pending" |}.

(** ** What the specification asks of the normalizer *)

Module Spec.

(** [round(amount * 100)] in exact arithmetic, halves rounded up: the
    integer number of cents of a finite amount. *)
Definition round_times_100 (x : number) : option Z :=
  match x with
  | S754_zero _ => Some 0
  | S754_finite s m e =>
      let v := if s then - (100 * Zpos m) else 100 * Zpos m in
      Some (if 0 <=? e then v * 2 ^ e
            else (2 * v + 2 ^ (- e)) / 2 ^ (1 - e))
  | _ => None
  end.

(** The amount a row should carry for the validated amount [x]. *)
Definition amountCents (x : number) : option number :=
  option_map of_Z (round_times_100 x).

End Spec.

(** The statements among the calls of a trace, in the order sent. *)
Fixpoint statements (evs : list Event) : list Statement :=
  match evs with
  | [] => []
  | EvSql st :: rest => st :: statements rest
  | _ :: rest => statements rest
  end.

Definition invoices_path : string := "/dashboard/invoices".

(** The message the validator gives for a status entry that is not one of
    the two allowed values. *)
Definition status_message (v : option FormDataEntryValue) : string :=
  match v with
  | Some (StringEntry s) =>
      "Invalid enum value. Expected 'pending' | 'paid', received '" ++ s ++ "'"
  | _ => "Please select an invoice status."
  end.

(** The amount field of the schema with form feedback. *)
Definition amount_schema : Zod.ZodType number := s_amount Actions.CreateInvoice.

(** The statement [createInvoice] sends for validated fields, and the one
    [updateInvoice] sends. *)
Definition insert_of (w : World) (data : InvoiceFields) : Statement :=
  INSERT_INTO_invoices (customerId data) (mul (amount data) hundred) (status data)
    (JsString.split_first "T" (now_iso w)).

Definition update_of (id : string) (data : InvoiceFields) : Statement :=
  UPDATE_invoices (customerId data) (mul (amount data) hundred) (status data) id.

(** The world after setting the clock. *)
Definition at_time (t : string) (w : World) : World :=
  {| invoices := invoices w; inserted := inserted w; uuid := uuid w;
     fails := fails w; now_iso := t; trace := trace w |}.

(** The error messages of each field under the schema with form feedback;
    [None] when the field is accepted. *)
Definition customer_errors (v : option FormDataEntryValue) : option (list string) :=
  match v with
  | Some (StringEntry _) => None
  | _ => Some ["Please select a customer."]
  end.

Definition amount_errors (v : option FormDataEntryValue) : option (list string) :=
  if isNaN (Number v) then Some ["Expected number, received nan"]
  else if leb (Number v) zero then Some ["Please enter an amount greater than $0."]
  else None.

Definition status_errors (v : option FormDataEntryValue) : option (list string) :=
  match v with
  | Some (StringEntry s) =>
      if existsb (String.eqb s) ["pending"; "paid"] then None
      else Some [status_message v]
  | _ => Some [status_message v]
  end.

(** The row an accepted form adds to the table in the world [w]. *)
Definition new_row (w : World) (data : InvoiceFields) : InvoiceRow :=
  {| row_id := uuid w (inserted w);
     row_customer_id := customerId data;
     row_amount := mul (amount data) hundred;
     row_status := status data;
     row_date := JsString.split_first "T" (now_iso w) |}.

(** What a successful update makes of a row. *)
Definition updated_row (id : string) (data : InvoiceFields) (r : InvoiceRow) : InvoiceRow :=
  if String.eqb (row_id r) id
  then {| row_id := row_id r; row_customer_id := customerId data;
          row_amount := mul (amount data) hundred; row_status := status data;
          row_date := row_date r |}
  else r.

(** The messages of the issues filed under the key [k], in order. *)
Definition messages_under (k : string) (issues : list Zod.ZodIssue) : list string :=
  map Zod.message
    (filter (fun i => match Zod.path i with
                      | [] => false
                      | k' :: _ => String.eqb k' k
                      end) issues).

(** The text has no ["T"]. *)
Definition no_T (s : string) : Prop :=
  ~ In "T"%char (list_ascii_of_string s).

(** The amount a statement carries, if it carries one. *)
Definition statement_amount (st : Statement) : option number :=
  match st with
  | INSERT_INTO_invoices _ a _ _ => Some a
  | UPDATE_invoices _ a _ _ => Some a
  | DELETE_FROM_invoices _ => None
  end.




(** A table with two rows, in a store where every statement succeeds. *)
Definition row_9 : InvoiceRow :=
  {| row_id := "inv-9"; row_customer_id := "c7"; row_amount := of_Z 2000;
     row_status := "paid"; row_date := "2023-12-01" |}.

Definition row_1 : InvoiceRow :=
  {| row_id := "inv-1"; row_customer_id := "c3"; row_amount := of_Z 999;
     row_status := "pending"; row_date := "2023-11-20" |}.

Definition world1 : World :=
  {| invoices := [row_9; row_1]; inserted := 2; uuid := fun _ => "inv-2";
     fails := fun _ => false; now_iso := "2024-03-09T10:11:12.000Z"; trace := [] |}.

(** The world with the database behaving as [f] says from now on. *)
Definition with_store (f : Statement -> bool) (w : World) : World :=
  {| invoices := invoices w; inserted := inserted w; uuid := uuid w;
     fails := f; now_iso := now_iso w; trace := trace w |}.

(** * Properties *)

(** ** Trimming *)

Section Trimming.

Import JsString.

Lemma strip_prefix_length (p l r : list N) :
  strip_prefix p l = Some r -> (List.length r + List.length p = List.length l)%nat.
Proof.
  revert l; induction p as [| a p IH]; intros l; simpl.
  - intros E; inversion E; subst. lia.
  - destruct l as [| b l]; [discriminate |].
    destruct (N.eqb a b); [| discriminate].
    intros E. apply IH in E. simpl. lia.
Qed.

Lemma strip_any_shorter (ps : list (list N)) (l r : list N) :
  Forall (fun p => p <> []) ps ->
  strip_any ps l = Some r -> (List.length r < List.length l)%nat.
Proof.
  induction 1 as [| p ps Hp _ IH]; simpl; [discriminate |].
  destruct (strip_prefix p l) as [r' |] eqn:E; [| exact IH].
  intros E'; inversion E'; subst r'.
  apply strip_prefix_length in E.
  destruct p; [congruence | simpl in E; lia].
Qed.

Lemma strip_any_nil (ps : list (list N)) :
  Forall (fun p => p <> []) ps -> strip_any ps [] = None.
Proof.
  induction 1 as [| p ps Hp _ IH]; simpl; [reflexivity |].
  destruct p; [congruence | exact IH].
Qed.

(** With the length of the text as bound, trimming stops only when no
    white space is left in front. *)
Lemma trim_start_fuel_done (ps : list (list N)) :
  Forall (fun p => p <> []) ps ->
  forall fuel l, (List.length l <= fuel)%nat ->
    strip_any ps (trim_start_fuel ps fuel l) = None.
Proof.
  intros Hps. induction fuel as [| fuel IH]; intros l Hl; simpl.
  - destruct l; [apply strip_any_nil; exact Hps | simpl in Hl; lia].
  - destruct (strip_any ps l) as [r |] eqn:E; [| exact E].
    apply IH. pose proof (strip_any_shorter ps l r Hps E). lia.
Qed.

Lemma trimStart_done (l : list N) :
  strip_any white_space (trimStart l) = None.
Proof.
  apply trim_start_fuel_done; [| apply le_n].
  unfold white_space. repeat constructor; discriminate.
Qed.

End Trimming.

(** ** Binary64 rounding keeps positive values positive *)

Section Rounding.



Lemma Zdigits2_nonneg (z : Z) : 0 <= Zdigits2 z.
Proof. destruct z; simpl; lia. Qed.


Lemma shr_1_nonneg (r : shr_record) : 0 <= shr_m r -> 0 <= shr_m (shr_1 r).
Proof.
  destruct r as [m b c]; simpl.
  destruct m as [| p | p]; [simpl; lia | | lia].
  intros _. destruct p; simpl; lia.
Qed.

Lemma shr_1_digits (r : shr_record) :
  0 <= shr_m r ->
  Zdigits2 (shr_m (shr_1 r)) = Z.max 0 (Zdigits2 (shr_m r) - 1).
Proof.
  destruct r as [m b c]; simpl.
  destruct m as [| p | p]; [reflexivity | | lia].
  intros _.
  destruct p as [p | p |]; cbn [shr_m Zdigits2 digits2_pos];
    rewrite ?Pos2Z.inj_succ; lia.
Qed.

Lemma iter_shr_1 (p : positive) :
  forall r, 0 <= shr_m r ->
    0 <= shr_m (iter_pos shr_1 p r) /\
    Zdigits2 (shr_m (iter_pos shr_1 p r)) = Z.max 0 (Zdigits2 (shr_m r) - Zpos p).
Proof.
  induction p as [p IH | p IH |]; intros r Hr; simpl.
  - pose proof (shr_1_nonneg r Hr) as H1.
    pose proof (shr_1_digits r Hr) as D1.
    destruct (IH _ H1) as [H2 D2].
    destruct (IH _ H2) as [H3 D3].
    split; [exact H3 |]. rewrite D3, D2, D1.
    pose proof (Zdigits2_nonneg (shr_m r)). lia.
  - destruct (IH _ Hr) as [H2 D2].
    destruct (IH _ H2) as [H3 D3].
    split; [exact H3 |]. rewrite D3, D2.
    pose proof (Zdigits2_nonneg (shr_m r)). lia.
  - split; [apply shr_1_nonneg; exact Hr |].
    apply shr_1_digits; exact Hr.
Qed.

Lemma shr_m_of_loc (m : Z) (l : location) : shr_m (shr_record_of_loc m l) = m.
Proof. destruct l as [| c]; [reflexivity | destruct c; reflexivity]. Qed.














End Rounding.

(** ** The validator *)

Section Validator.

Import Zod.

Lemma positive_of_checks (x : number) :
  isNaN x = false -> leb x zero = false -> positive_number x.
Proof.
  unfold positive_number, leb, ltb, SFleb, SFltb.
  destruct x as [s | s | | s m e]; simpl; try discriminate;
    destruct s; simpl; congruence.
Qed.

Lemma amount_nan v :
  isNaN (Number v) = true ->
  amount_schema ["amount"] v =
    INVALID [{| code := invalid_type; path := ["amount"];
                message := "Expected number, received nan" |}].
Proof.
  intros H. unfold amount_schema. cbn [Actions.CreateInvoice omit_id_date s_amount
    Actions.FormSchema shape_amount].
  unfold coerce_number, getParsedType_number. rewrite H. reflexivity.
Qed.

Lemma amount_too_small v :
  isNaN (Number v) = false -> leb (Number v) zero = true ->
  amount_schema ["amount"] v =
    INVALID [{| code := too_small; path := ["amount"];
                message := "Please enter an amount greater than $0." |}].
Proof.
  intros H L. unfold amount_schema. cbn [Actions.CreateInvoice omit_id_date s_amount
    Actions.FormSchema shape_amount].
  unfold coerce_number, getParsedType_number. rewrite H.
  cbn [flat_map]. unfold run_check. cbn [gt check_inclusive check_value check_message].
  rewrite L. reflexivity.
Qed.

Lemma amount_accepted v :
  isNaN (Number v) = false -> leb (Number v) zero = false ->
  amount_schema ["amount"] v = OK (Number v).
Proof.
  intros H L. unfold amount_schema. cbn [Actions.CreateInvoice omit_id_date s_amount
    Actions.FormSchema shape_amount].
  unfold coerce_number, getParsedType_number. rewrite H.
  cbn [flat_map]. unfold run_check. cbn [gt check_inclusive check_value check_message].
  rewrite L. reflexivity.
Qed.

(** The three outcomes of the amount field. *)
Lemma amount_cases v :
  (exists c m, amount_schema ["amount"] v =
                 INVALID [{| code := c; path := ["amount"]; message := m |}]
               /\ (isNaN (Number v) = true \/ leb (Number v) zero = true))
  \/ (amount_schema ["amount"] v = OK (Number v)
      /\ isNaN (Number v) = false /\ leb (Number v) zero = false).
Proof.
  destruct (isNaN (Number v)) eqn:H.
  - left. do 2 eexists. split; [apply amount_nan; exact H | now left].
  - destruct (leb (Number v) zero) eqn:L.
    + left. do 2 eexists. split; [apply amount_too_small; assumption | now right].
    + right. split; [apply amount_accepted; assumption | split; reflexivity].
Qed.


End Validator.

(** ** Runs of the actions *)

(** Unfolds the calls of an action down to the world they act on. *)
Ltac run_action :=
  unfold bind, ret, throw, try_catch, console_log, console_error, toISOString,
    sql, revalidatePath, redirect;
  cbn [emit fails now_iso trace invoices uuid inserted].

Section Runs.

Variables (prev : State) (id : string) (fd : FormData) (w : World).

Lemma createInvoice_invalid issues :
  safeParse Actions.CreateInvoice (read_form fd) = Zod.INVALID issues ->
  Actions.createInvoice prev fd w =
    (inr {| errors := Some (Zod.fieldErrors issues);
            message := Some "Missing Fields. Failed to Create Invoice." |},
     emit (EvConsoleLog "validatedFields: " (Zod.INVALID issues)) w).
Proof.
  intros H. unfold Actions.createInvoice. rewrite H. reflexivity.
Qed.

Lemma updateInvoice_invalid issues :
  safeParse Actions.UpdateInvoice (read_form fd) = Zod.INVALID issues ->
  Actions.updateInvoice id prev fd w =
    (inr {| errors := Some (Zod.fieldErrors issues);
            message := Some "Missing Fields. Failed to Update Invoice." |}, w).
Proof.
  intros H. unfold Actions.updateInvoice. rewrite H. reflexivity.
Qed.

Lemma createInvoice_valid data :
  safeParse Actions.CreateInvoice (read_form fd) = Zod.OK data ->
  let r := Actions.createInvoice prev fd w in
  fst r = inl (NEXT_REDIRECT invoices_path)
  /\ trace (snd r) =
       (trace w ++ [EvConsoleLog "validatedFields: " (Zod.OK data); EvSql (insert_of w data)]
          ++ (if fails w (insert_of w data)
              then [EvConsoleError "Database Error: Failed to Create Invoice."] else [])
          ++ [EvRevalidatePath invoices_path; EvRedirect invoices_path])%list
  /\ invoices (snd r) =
       if fails w (insert_of w data) then invoices w
       else execute (uuid w (inserted w)) (insert_of w data) (invoices w).
Proof.
  intros H. unfold Actions.createInvoice. rewrite H.
  run_action.
  fold (insert_of w data).
  destruct (fails w (insert_of w data)); cbn [fst snd trace invoices emit];
    repeat rewrite <- app_assoc; auto.
Qed.

Lemma updateInvoice_valid data :
  safeParse Actions.UpdateInvoice (read_form fd) = Zod.OK data ->
  let r := Actions.updateInvoice id prev fd w in
  fst r = inl (NEXT_REDIRECT invoices_path)
  /\ trace (snd r) =
       (trace w ++ [EvSql (update_of id data)]
          ++ (if fails w (update_of id data)
              then [EvConsoleError "Database Error: Failed to Update Invoice."] else [])
          ++ [EvRevalidatePath invoices_path; EvRedirect invoices_path])%list
  /\ invoices (snd r) =
       if fails w (update_of id data) then invoices w
       else execute (uuid w (inserted w)) (update_of id data) (invoices w).
Proof.
  intros H. unfold Actions.updateInvoice. rewrite H.
  run_action.
  fold (update_of id data).
  destruct (fails w (update_of id data)); cbn [fst snd trace invoices emit];
    repeat rewrite <- app_assoc; auto.
Qed.

Lemma deleteInvoice_run :
  let r := Actions.deleteInvoice id w in
  fst r = inr tt
  /\ trace (snd r) =
       (trace w ++ EvSql (DELETE_FROM_invoices id)
          :: (if fails w (DELETE_FROM_invoices id)
              then [EvConsoleError "Database Error: Failed to Delete Invoice."]
              else [EvRevalidatePath invoices_path]))%list
  /\ invoices (snd r) =
       if fails w (DELETE_FROM_invoices id) then invoices w
       else execute (uuid w (inserted w)) (DELETE_FROM_invoices id) (invoices w).
Proof.
  unfold Actions.deleteInvoice. run_action.
  destruct (fails w (DELETE_FROM_invoices id)); cbn [fst snd trace invoices emit];
    repeat rewrite <- app_assoc; auto.
Qed.

Lemma strict_createInvoice_invalid issues :
  safeParse StrictActions.CreateInvoice (read_form fd) = Zod.INVALID issues ->
  StrictActions.createInvoice fd w = (inl (ZodError issues), w).
Proof.
  intros H. unfold StrictActions.createInvoice, bind, parse. rewrite H. reflexivity.
Qed.

Lemma strict_createInvoice_valid data :
  safeParse StrictActions.CreateInvoice (read_form fd) = Zod.OK data ->
  let r := StrictActions.createInvoice fd w in
  (fails w (insert_of w data) = true ->
     fst r = inl DatabaseError /\ trace (snd r) = (trace w ++ [EvSql (insert_of w data)])%list
     /\ invoices (snd r) = invoices w)
  /\ (fails w (insert_of w data) = false ->
        fst r = inl (NEXT_REDIRECT invoices_path)
        /\ trace (snd r) =
             (trace w ++ [EvSql (insert_of w data); EvRevalidatePath invoices_path; EvRedirect invoices_path])%list
        /\ invoices (snd r) = execute (uuid w (inserted w)) (insert_of w data) (invoices w)).
Proof.
  intros H. unfold StrictActions.createInvoice, parse. rewrite H.
  run_action.
  fold (insert_of w data).
  destruct (fails w (insert_of w data)); cbn [fst snd trace invoices emit];
    repeat rewrite <- app_assoc; split; intros; try discriminate; auto.
Qed.

End Runs.

(** ** Field errors of a rejected form *)

Section FieldErrors.

Import Zod.

Lemma statements_app (a b : list Event) :
  statements (a ++ b) = (statements a ++ statements b)%list.
Proof.
  induction a as [| ev a IH]; [reflexivity |].
  destruct ev; simpl; rewrite IH; reflexivity.
Qed.

(** The customer field gives its value or one issue under its own name. *)
Lemma customerId_cases (v : option FormDataEntryValue) :
  (exists c, s_customerId Actions.CreateInvoice ["customerId"] v = OK c)
  \/ (exists m, s_customerId Actions.CreateInvoice ["customerId"] v =
                  INVALID [{| code := invalid_type; path := ["customerId"]; message := m |}]).
Proof.
  destruct v as [[s | f] |]; cbn; eauto.
Qed.

(** The status field gives one of the two values, or one issue under its
    own name with the message [status_message]. *)
Lemma status_cases (v : option FormDataEntryValue) :
  (exists s, v = Some (StringEntry s) /\ (s = "pending" \/ s = "paid")
             /\ s_status Actions.CreateInvoice ["status"] v = OK s)
  \/ (v <> Some (StringEntry "pending") /\ v <> Some (StringEntry "paid")
      /\ exists c, s_status Actions.CreateInvoice ["status"] v =
                     INVALID [{| code := c; path := ["status"];
                                 message := status_message v |}]).
Proof.
  destruct v as [[s | f] |]; cbn [Actions.CreateInvoice omit_id_date s_status
    Actions.FormSchema shape_status enum status_message existsb].
  - destruct (String.eqb_spec s "pending") as [-> | N1].
    { left. exists "pending". cbn. auto. }
    destruct (String.eqb_spec s "paid") as [-> | N2].
    { left. exists "paid". cbn. auto. }
    right. cbn [orb joinValues].
    split; [congruence | split; [congruence | eexists; reflexivity]].
  - right. split; [discriminate | split; [discriminate | eexists; reflexivity]].
  - right. split; [discriminate | split; [discriminate | eexists; reflexivity]].
Qed.

End FieldErrors.

(** ** Validation failures *)

Section Rejection.

Import Zod.

(** A form whose amount or status field has an issue is rejected, and the
    field errors of that field are exactly the messages of the schema. *)
Lemma safeParse_cases (fd : FormData) :
  (exists data, safeParse Actions.CreateInvoice (read_form fd) = OK data)
  \/ (exists issues,
        safeParse Actions.CreateInvoice (read_form fd) = INVALID issues
        /\ (forall c m,
              amount_schema ["amount"] (get fd "amount") =
                INVALID [{| code := c; path := ["amount"]; message := m |}] ->
              field (fieldErrors issues) "amount" = Some [m])
        /\ (forall c m,
              s_status Actions.CreateInvoice ["status"] (get fd "status") =
                INVALID [{| code := c; path := ["status"]; message := m |}] ->
              field (fieldErrors issues) "status" = Some [m])).
Proof.
  unfold safeParse. cbn [read_form in_customerId in_amount in_status].
  change (s_amount Actions.CreateInvoice) with amount_schema.
  destruct (customerId_cases (get fd "customerId")) as [[c Ec] | [mc Ec]];
    rewrite Ec;
    (destruct (amount_cases (get fd "amount")) as [[ca [ma [Ea _]]] | [Ea _]]);
    rewrite Ea;
    (destruct (status_cases (get fd "status")) as [[s [_ [_ Es]]] | [_ [_ [cs Es]]]]);
    rewrite Es;
    try (left; eexists; reflexivity);
    right; eexists; (split; [reflexivity |]);
    split; intros c' m' E; inversion E; subst; reflexivity.
Qed.

End Rejection.

(** * The actions *)

(** ** Amount in cents *)

(** The scenario of the specification: the form
    [{customerId: "c1", amount: "15.00", status: "pending"}] inserts a row
    with the amount 1500 and today's date, then the cache is invalidated
    and the request redirected. *)
Example create_scenario :
  Actions.createInvoice state0 form0 world0 =
    (inl (NEXT_REDIRECT "/dashboard/invoices"),
     {| invoices := [{| row_id := "inv-0"; row_customer_id := "c1";
                        row_amount := of_Z 1500; row_status := "pending";
                        row_date := "2024-03-09" |}];
        inserted := 1; uuid := uuid world0; fails := fails world0;
        now_iso := now_iso world0;
        trace := [EvConsoleLog "validatedFields: " (Zod.OK fields0);
                  EvSql (INSERT_INTO_invoices "c1" (of_Z 1500) "pending" "2024-03-09");
                  EvRevalidatePath "/dashboard/invoices";
                  EvRedirect "/dashboard/invoices"] |}).
Proof. vm_compute. reflexivity. Qed.

(** C1. For a validated amount the actions are to send
    [round(amount * 100)]. At the amount ["1.1"] the specification's value is
    110, while [createInvoice] and [updateInvoice] both send the unrounded
    binary64 product 110.00000000000001, which is not an integer. *)
Theorem amount_in_cents_is_not_rounded :
  let fd := form "c1" "1.1" "pending" in
  let x := Number (get fd "amount") in
  let cents := S754_finite false 7740561859543041 (-46) in
  positive_number x
  /\ Spec.round_times_100 x = Some 110
  /\ statements (trace (snd (Actions.createInvoice state0 fd world0))) =
       [INSERT_INTO_invoices "c1" cents "pending" "2024-03-09"]
  /\ statements (trace (snd (Actions.updateInvoice "inv-9" state0 fd world0))) =
       [UPDATE_invoices "c1" cents "pending" "inv-9"]
  /\ isInteger cents = false
  /\ Spec.amountCents x <> Some cents.
Proof.
  repeat split; try (vm_compute; reflexivity).
  vm_compute. discriminate.
Qed.

(** The examples of the specification: 12.50 is sent as 1250, and 19.999
    as 1999.8999999999999 where the specification asks for 2000. *)
Example amount_in_cents_examples :
  statements (trace (snd (Actions.createInvoice state0 (form "c1" "12.50" "paid") world0))) =
    [INSERT_INTO_invoices "c1" (of_Z 1250) "paid" "2024-03-09"]
  /\ Spec.amountCents (Number (Some (StringEntry "12.50"))) = Some (of_Z 1250)
  /\ statements (trace (snd (Actions.createInvoice state0 (form "c1" "19.999" "paid") world0))) =
       [INSERT_INTO_invoices "c1" (S754_finite false 8795653217556889 (-42)) "paid" "2024-03-09"]
  /\ Spec.amountCents (Number (Some (StringEntry "19.999"))) = Some (of_Z 2000)
  /\ isInteger (S754_finite false 8795653217556889 (-42)) = false.
Proof.
  repeat split; vm_compute; reflexivity.
Qed.

(** The older [createInvoice] does not check the amount at all: ["-5"] is
    written as -500. *)
Example strict_writes_unchecked_amount :
  invoices (snd (StrictActions.createInvoice (form "c1" "-5" "paid") world0)) =
    [{| row_id := "inv-0"; row_customer_id := "c1"; row_amount := of_Z (-500);
        row_status := "paid"; row_date := "2024-03-09" |}].
Proof. vm_compute. reflexivity. Qed.







(** ** Failures of the database *)

(** C2, as stated, fails: the older [createInvoice] sends its statement
    outside any [try]; when the database fails it the error reaches the
    caller, nothing is logged, and neither the cache nor the router is
    called. *)
Lemma strict_insert_failure_propagates :
  let r := StrictActions.createInvoice (form "c1" "15.00" "pending") world_down in
  fst r = inl DatabaseError
  /\ trace (snd r) =
       [EvSql (INSERT_INTO_invoices "c1" (of_Z 1500) "pending" "2024-03-09")].
Proof.
  split; vm_compute; reflexivity.
Qed.

(** C2, amended. In the actions with form feedback a failure of the
    statement is caught and logged and does not reach the caller:
    [createInvoice] and [updateInvoice] log the error once and go on to
    invalidate the cache and redirect, [deleteInvoice] logs it once and
    returns normally, and the table is as it was; whatever the form and the
    database, the only thing these actions throw is the redirect. The older
    [createInvoice] has no [try]: there the failure is thrown to the caller,
    nothing is logged and nothing else is called. *)
Theorem database_failure_is_recovered (prev : State) (id : string) (fd : FormData)
    (w : World) :
  (forall data,
     safeParse Actions.CreateInvoice (read_form fd) = Zod.OK data ->
     fails w (insert_of w data) = true ->
     fst (Actions.createInvoice prev fd w) = inl (NEXT_REDIRECT "/dashboard/invoices")
     /\ trace (snd (Actions.createInvoice prev fd w)) =
          (trace w
             ++ [EvConsoleLog "validatedFields: " (Zod.OK data);
                 EvSql (insert_of w data);
                 EvConsoleError "Database Error: Failed to Create Invoice.";
                 EvRevalidatePath "/dashboard/invoices";
                 EvRedirect "/dashboard/invoices"])%list
     /\ invoices (snd (Actions.createInvoice prev fd w)) = invoices w)
  /\ (forall data,
        safeParse Actions.UpdateInvoice (read_form fd) = Zod.OK data ->
        fails w (update_of id data) = true ->
        fst (Actions.updateInvoice id prev fd w) = inl (NEXT_REDIRECT "/dashboard/invoices")
        /\ trace (snd (Actions.updateInvoice id prev fd w)) =
             (trace w
                ++ [EvSql (update_of id data);
                    EvConsoleError "Database Error: Failed to Update Invoice.";
                    EvRevalidatePath "/dashboard/invoices";
                    EvRedirect "/dashboard/invoices"])%list
        /\ invoices (snd (Actions.updateInvoice id prev fd w)) = invoices w)
  /\ (fails w (DELETE_FROM_invoices id) = true ->
        fst (Actions.deleteInvoice id w) = inr tt
        /\ trace (snd (Actions.deleteInvoice id w)) =
             (trace w
                ++ [EvSql (DELETE_FROM_invoices id);
                    EvConsoleError "Database Error: Failed to Delete Invoice."])%list
        /\ invoices (snd (Actions.deleteInvoice id w)) = invoices w)
  /\ (forall e, fst (Actions.createInvoice prev fd w) = inl e ->
                e = NEXT_REDIRECT "/dashboard/invoices")
  /\ (forall e, fst (Actions.updateInvoice id prev fd w) = inl e ->
                e = NEXT_REDIRECT "/dashboard/invoices")
  /\ (forall e, fst (Actions.deleteInvoice id w) <> inl e)
  /\ (forall data,
        safeParse StrictActions.CreateInvoice (read_form fd) = Zod.OK data ->
        fails w (insert_of w data) = true ->
        fst (StrictActions.createInvoice fd w) = inl DatabaseError
        /\ trace (snd (StrictActions.createInvoice fd w)) =
             (trace w ++ [EvSql (insert_of w data)])%list
        /\ invoices (snd (StrictActions.createInvoice fd w)) = invoices w).
Proof.
  split; [| split; [| split; [| split; [| split; [| split]]]]].
  - intros data H F.
    destruct (createInvoice_valid prev fd w data H) as [R [T I]].
    rewrite F in T, I. repeat split; assumption.
  - intros data H F.
    destruct (updateInvoice_valid prev id fd w data H) as [R [T I]].
    rewrite F in T, I. repeat split; assumption.
  - intros F.
    destruct (deleteInvoice_run id w) as [R [T I]].
    rewrite F in T, I. repeat split; assumption.
  - intros e.
    destruct (safeParse Actions.CreateInvoice (read_form fd)) as [data | issues] eqn:H.
    + destruct (createInvoice_valid prev fd w data H) as [R _]. rewrite R.
      intros E; inversion E; reflexivity.
    + rewrite (createInvoice_invalid prev fd w issues H). discriminate.
  - intros e.
    destruct (safeParse Actions.UpdateInvoice (read_form fd)) as [data | issues] eqn:H.
    + destruct (updateInvoice_valid prev id fd w data H) as [R _]. rewrite R.
      intros E; inversion E; reflexivity.
    + rewrite (updateInvoice_invalid prev id fd w issues H). discriminate.
  - intros e. destruct (deleteInvoice_run id w) as [R _]. rewrite R. discriminate.
  - intros data H F.
    destruct (strict_createInvoice_valid fd w data H) as [B _].
    exact (B F).
Qed.

Lemma database_failure_is_recovered_witness :
  (fst (Actions.createInvoice state0 form0 world_down) =
     inl (NEXT_REDIRECT "/dashboard/invoices")
   /\ trace (snd (Actions.createInvoice state0 form0 world_down)) =
        (trace world_down
           ++ [EvConsoleLog "validatedFields: " (Zod.OK fields0);
               EvSql (insert_of world_down fields0);
               EvConsoleError "Database Error: Failed to Create Invoice.";
               EvRevalidatePath "/dashboard/invoices";
               EvRedirect "/dashboard/invoices"])%list
   /\ invoices (snd (Actions.createInvoice state0 form0 world_down)) = invoices world_down)
  /\ (fst (Actions.deleteInvoice "inv-9" world_down) = inr tt
      /\ trace (snd (Actions.deleteInvoice "inv-9" world_down)) =
           (trace world_down
              ++ [EvSql (DELETE_FROM_invoices "inv-9");
                  EvConsoleError "Database Error: Failed to Delete Invoice."])%list
      /\ invoices (snd (Actions.deleteInvoice "inv-9" world_down)) = invoices world_down)
  /\ (fst (StrictActions.createInvoice form0 world_down) = inl DatabaseError
      /\ trace (snd (StrictActions.createInvoice form0 world_down)) =
           (trace world_down ++ [EvSql (insert_of world_down fields0)])%list
      /\ invoices (snd (StrictActions.createInvoice form0 world_down)) = invoices world_down).
Proof.
  assert (H : safeParse Actions.CreateInvoice (read_form form0) = Zod.OK fields0)
    by (vm_compute; reflexivity).
  assert (H' : safeParse StrictActions.CreateInvoice (read_form form0) = Zod.OK fields0)
    by (vm_compute; reflexivity).
  assert (F : fails world_down (insert_of world_down fields0) = true) by reflexivity.
  assert (F' : fails world_down (DELETE_FROM_invoices "inv-9") = true) by reflexivity.
  destruct (database_failure_is_recovered state0 "inv-9" form0 world_down)
    as [C [_ [D [_ [_ [_ S]]]]]].
  split; [exact (C fields0 H F) |].
  split; [exact (D F') | exact (S fields0 H' F)].
Defined.

(** C4. When the form passes validation, [createInvoice] and
    [updateInvoice] end, whether the statement succeeded or failed, by
    invalidating the cache of ["/dashboard/invoices"] and then redirecting
    to that path. *)
Theorem valid_form_revalidates_then_redirects (prev : State) (id : string)
    (fd : FormData) (w : World) :
  (forall data,
     safeParse Actions.CreateInvoice (read_form fd) = Zod.OK data ->
     fst (Actions.createInvoice prev fd w) = inl (NEXT_REDIRECT "/dashboard/invoices")
     /\ exists before,
          trace (snd (Actions.createInvoice prev fd w)) =
            (trace w ++ before
               ++ [EvRevalidatePath "/dashboard/invoices"; EvRedirect "/dashboard/invoices"])%list
          /\ forall path, ~ In (EvRevalidatePath path) before /\ ~ In (EvRedirect path) before)
  /\ (forall data,
        safeParse Actions.UpdateInvoice (read_form fd) = Zod.OK data ->
        fst (Actions.updateInvoice id prev fd w) = inl (NEXT_REDIRECT "/dashboard/invoices")
        /\ exists before,
             trace (snd (Actions.updateInvoice id prev fd w)) =
               (trace w ++ before
                  ++ [EvRevalidatePath "/dashboard/invoices"; EvRedirect "/dashboard/invoices"])%list
             /\ forall path, ~ In (EvRevalidatePath path) before /\ ~ In (EvRedirect path) before).
Proof.
  split; intros data H.
  - destruct (createInvoice_valid prev fd w data H) as [E [T _]].
    split; [exact E |]. eexists. split.
    + rewrite T. rewrite (app_assoc [_; _]). reflexivity.
    + intros path. destruct (fails w (insert_of w data)); simpl; split;
        intros I; repeat (destruct I as [I | I]; try discriminate I); exact I.
  - destruct (updateInvoice_valid prev id fd w data H) as [E [T _]].
    split; [exact E |]. eexists. split.
    + rewrite T. rewrite (app_assoc [_]). reflexivity.
    + intros path. destruct (fails w (update_of id data)); simpl; split;
        intros I; repeat (destruct I as [I | I]; try discriminate I); exact I.
Qed.

Lemma valid_form_revalidates_then_redirects_witness :
  fst (Actions.createInvoice state0 form0 world_down) = inl (NEXT_REDIRECT "/dashboard/invoices")
  /\ fst (Actions.updateInvoice "inv-9" state0 form0 world_down) =
       inl (NEXT_REDIRECT "/dashboard/invoices").
Proof.
  assert (H : safeParse Actions.CreateInvoice (read_form form0) = Zod.OK fields0)
    by (vm_compute; reflexivity).
  destruct (valid_form_revalidates_then_redirects state0 "inv-9" form0 world_down) as [C U].
  destruct (C fields0 H) as [RC _]. destruct (U fields0 H) as [RU _].
  split; [exact RC | exact RU].
Defined.

(** C5. [deleteInvoice] invalidates the cache only when the statement
    succeeds: after a failure the error is caught and logged and the cache
    is not touched, whereas [createInvoice] and [updateInvoice] invalidate
    it after a failed statement too. *)
Theorem delete_revalidates_only_on_success (prev : State) (id : string)
    (fd : FormData) (w : World) :
  trace (snd (Actions.deleteInvoice id w)) =
    (trace w
       ++ (if fails w (DELETE_FROM_invoices id)
           then [EvSql (DELETE_FROM_invoices id);
                 EvConsoleError "Database Error: Failed to Delete Invoice."]
           else [EvSql (DELETE_FROM_invoices id);
                 EvRevalidatePath "/dashboard/invoices"]))%list
  /\ (forall data,
        safeParse Actions.CreateInvoice (read_form fd) = Zod.OK data ->
        fails w (insert_of w data) = true ->
        trace (snd (Actions.createInvoice prev fd w)) =
          (trace w
             ++ [EvConsoleLog "validatedFields: " (Zod.OK data);
                 EvSql (insert_of w data);
                 EvConsoleError "Database Error: Failed to Create Invoice.";
                 EvRevalidatePath "/dashboard/invoices";
                 EvRedirect "/dashboard/invoices"])%list)
  /\ (forall data,
        safeParse Actions.UpdateInvoice (read_form fd) = Zod.OK data ->
        fails w (update_of id data) = true ->
        trace (snd (Actions.updateInvoice id prev fd w)) =
          (trace w
             ++ [EvSql (update_of id data);
                 EvConsoleError "Database Error: Failed to Update Invoice.";
                 EvRevalidatePath "/dashboard/invoices";
                 EvRedirect "/dashboard/invoices"])%list).
Proof.
  split; [| split].
  - destruct (deleteInvoice_run id w) as [_ [T _]]. rewrite T.
    destruct (fails w (DELETE_FROM_invoices id)); reflexivity.
  - intros data H F.
    destruct (createInvoice_valid prev fd w data H) as [_ [T _]].
    rewrite T, F. reflexivity.
  - intros data H F.
    destruct (updateInvoice_valid prev id fd w data H) as [_ [T _]].
    rewrite T, F. reflexivity.
Qed.

Lemma delete_revalidates_only_on_success_witness :
  trace (snd (Actions.updateInvoice "inv-9" state0 form0 world_down)) =
    (trace world_down
       ++ [EvSql (update_of "inv-9" fields0);
           EvConsoleError "Database Error: Failed to Update Invoice.";
           EvRevalidatePath "/dashboard/invoices";
           EvRedirect "/dashboard/invoices"])%list.
Proof.
  assert (H : safeParse Actions.UpdateInvoice (read_form form0) = Zod.OK fields0)
    by (vm_compute; reflexivity).
  assert (F : fails world_down (update_of "inv-9" fields0) = true) by reflexivity.
  destruct (delete_revalidates_only_on_success state0 "inv-9" form0 world_down)
    as [_ [_ U]].
  exact (U fields0 H F).
Defined.

(** C9. [deleteInvoice] never calls the router: it returns to its caller
    whether the statement succeeded or failed, and no redirect is among its
    calls; [createInvoice] and [updateInvoice] redirect whenever the form
    passes validation. *)
Theorem deleteInvoice_never_redirects (prev : State) (id : string)
    (fd : FormData) (w : World) :
  fst (Actions.deleteInvoice id w) = inr tt
  /\ (exists calls,
        trace (snd (Actions.deleteInvoice id w)) = (trace w ++ calls)%list
        /\ forall path, ~ In (EvRedirect path) calls)
  /\ (forall data,
        safeParse Actions.CreateInvoice (read_form fd) = Zod.OK data ->
        fst (Actions.createInvoice prev fd w) = inl (NEXT_REDIRECT "/dashboard/invoices")
        /\ In (EvRedirect "/dashboard/invoices") (trace (snd (Actions.createInvoice prev fd w))))
  /\ (forall data,
        safeParse Actions.UpdateInvoice (read_form fd) = Zod.OK data ->
        fst (Actions.updateInvoice id prev fd w) = inl (NEXT_REDIRECT "/dashboard/invoices")
        /\ In (EvRedirect "/dashboard/invoices") (trace (snd (Actions.updateInvoice id prev fd w)))).
Proof.
  destruct (deleteInvoice_run id w) as [E [T _]].
  split; [exact E |]. split; [| split].
  - eexists. split; [exact T |].
    intros path. destruct (fails w (DELETE_FROM_invoices id)); simpl;
      intros I; repeat (destruct I as [I | I]; try discriminate I); exact I.
  - intros data H.
    destruct (createInvoice_valid prev fd w data H) as [R [TC _]].
    split; [exact R |]. rewrite TC, !in_app_iff. simpl. tauto.
  - intros data H.
    destruct (updateInvoice_valid prev id fd w data H) as [R [TU _]].
    split; [exact R |]. rewrite TU, !in_app_iff. simpl. tauto.
Qed.

Lemma deleteInvoice_never_redirects_witness :
  fst (Actions.createInvoice state0 form0 world0) = inl (NEXT_REDIRECT "/dashboard/invoices")
  /\ fst (Actions.updateInvoice "inv-9" state0 form0 world0) =
       inl (NEXT_REDIRECT "/dashboard/invoices").
Proof.
  assert (H : safeParse Actions.CreateInvoice (read_form form0) = Zod.OK fields0)
    by (vm_compute; reflexivity).
  destruct (deleteInvoice_never_redirects state0 "inv-9" form0 world0) as [_ [_ [C U]]].
  destruct (C fields0 H) as [RC _]. destruct (U fields0 H) as [RU _].
  split; [exact RC | exact RU].
Defined.

(** C10. [updateInvoice] leaves the date of every row as it was: the
    statement it sends sets the customer, the amount and the status only,
    and the action does not read the clock. *)
Theorem updateInvoice_keeps_dates (prev : State) (id : string) (fd : FormData)
    (w : World) (t : string) :
  map (fun r => (row_id r, row_date r)) (invoices (snd (Actions.updateInvoice id prev fd w))) =
    map (fun r => (row_id r, row_date r)) (invoices w)
  /\ fst (Actions.updateInvoice id prev fd (at_time t w)) =
       fst (Actions.updateInvoice id prev fd w)
  /\ invoices (snd (Actions.updateInvoice id prev fd (at_time t w))) =
       invoices (snd (Actions.updateInvoice id prev fd w))
  /\ trace (snd (Actions.updateInvoice id prev fd (at_time t w))) =
       trace (snd (Actions.updateInvoice id prev fd w)).
Proof.
  split.
  - destruct (safeParse Actions.UpdateInvoice (read_form fd)) as [data | issues] eqn:H.
    + destruct (updateInvoice_valid prev id fd w data H) as [_ [_ I]]. rewrite I.
      destruct (fails w (update_of id data)); [reflexivity |].
      cbn [execute update_of]. rewrite map_map. apply map_ext.
      intros r. destruct (String.eqb (row_id r) id); reflexivity.
    + rewrite (updateInvoice_invalid prev id fd w issues H). reflexivity.
  - unfold Actions.updateInvoice.
    destruct (safeParse Actions.UpdateInvoice (read_form fd)) as [data | issues];
      [| repeat split; reflexivity].
    run_action. cbn [at_time fails now_iso trace invoices uuid inserted].
    destruct (fails w _); repeat split; reflexivity.
Qed.

(** ** Validation *)

(** C3. A form whose amount is not a number, or is a number that is at
    most 0, makes [createInvoice] and [updateInvoice] return, without
    throwing, the field errors with one message for the amount field and
    the message ["Missing Fields. Failed to Create Invoice."] (or
    [Update]); no statement is sent and the table is left as it was. *)
Theorem lenient_rejects_bad_amount (prev : State) (id : string) (fd : FormData)
    (w : World) :
  isNaN (Number (get fd "amount")) = true \/ leb (Number (get fd "amount")) zero = true ->
  exists errs m,
    Zod.field errs "amount" = Some [m]
    /\ (m = "Expected number, received nan" \/ m = "Please enter an amount greater than $0.")
    /\ fst (Actions.createInvoice prev fd w) =
         inr {| errors := Some errs;
                message := Some "Missing Fields. Failed to Create Invoice." |}
    /\ statements (trace (snd (Actions.createInvoice prev fd w))) = statements (trace w)
    /\ invoices (snd (Actions.createInvoice prev fd w)) = invoices w
    /\ fst (Actions.updateInvoice id prev fd w) =
         inr {| errors := Some errs;
                message := Some "Missing Fields. Failed to Update Invoice." |}
    /\ statements (trace (snd (Actions.updateInvoice id prev fd w))) = statements (trace w)
    /\ invoices (snd (Actions.updateInvoice id prev fd w)) = invoices w.
Proof.
  intros B.
  assert (exists c m,
            amount_schema ["amount"] (get fd "amount") =
              Zod.INVALID [{| Zod.code := c; Zod.path := ["amount"]; Zod.message := m |}]
            /\ (m = "Expected number, received nan"
                \/ m = "Please enter an amount greater than $0.")) as [c [m [EA M]]].
  { destruct (isNaN (Number (get fd "amount"))) eqn:N.
    - do 2 eexists. split; [apply amount_nan; exact N | now left].
    - destruct B as [B | B]; [discriminate |].
      do 2 eexists. split; [apply amount_too_small; assumption | now right]. }
  destruct (safeParse_cases fd) as [[data H] | [issues [H [FA _]]]].
  - exfalso. revert H. unfold safeParse. cbn [read_form in_amount].
    change (s_amount Actions.CreateInvoice) with amount_schema. rewrite EA.
    destruct (s_customerId _ _ _); discriminate.
  - exists (Zod.fieldErrors issues), m.
    rewrite (createInvoice_invalid prev fd w issues H).
    rewrite (updateInvoice_invalid prev id fd w issues H).
    cbn [fst snd emit trace invoices]. rewrite statements_app, app_nil_r.
    repeat split; try assumption. exact (FA c m EA).
Qed.

Lemma lenient_rejects_bad_amount_witness :
  exists errs m,
    Zod.field errs "amount" = Some [m]
    /\ (m = "Expected number, received nan" \/ m = "Please enter an amount greater than $0.")
    /\ fst (Actions.createInvoice state0 (form "c1" "-5" "paid") world0) =
         inr {| errors := Some errs;
                message := Some "Missing Fields. Failed to Create Invoice." |}
    /\ statements (trace (snd (Actions.createInvoice state0 (form "c1" "-5" "paid") world0))) =
         statements (trace world0)
    /\ invoices (snd (Actions.createInvoice state0 (form "c1" "-5" "paid") world0)) =
         invoices world0
    /\ fst (Actions.updateInvoice "inv-9" state0 (form "c1" "-5" "paid") world0) =
         inr {| errors := Some errs;
                message := Some "Missing Fields. Failed to Update Invoice." |}
    /\ statements (trace (snd (Actions.updateInvoice "inv-9" state0 (form "c1" "-5" "paid") world0))) =
         statements (trace world0)
    /\ invoices (snd (Actions.updateInvoice "inv-9" state0 (form "c1" "-5" "paid") world0)) =
         invoices world0.
Proof.
  apply (lenient_rejects_bad_amount state0 "inv-9" (form "c1" "-5" "paid") world0).
  right. vm_compute. reflexivity.
Defined.

(** C6. In the older [createInvoice] a form that fails the schema makes
    the action throw the validation error: nothing is returned, and
    neither the database, the cache nor the router is called. *)
Theorem strict_validation_failure_throws (fd : FormData) (w : World)
    (issues : list Zod.ZodIssue) :
  safeParse StrictActions.CreateInvoice (read_form fd) = Zod.INVALID issues ->
  StrictActions.createInvoice fd w = (inl (ZodError issues), w).
Proof.
  apply strict_createInvoice_invalid.
Qed.

Lemma strict_validation_failure_throws_witness :
  StrictActions.createInvoice (form "c1" "abc" "pending") world0 =
    (inl (ZodError [{| Zod.code := Zod.invalid_type; Zod.path := ["amount"];
                       Zod.message := "Expected number, received nan" |}]), world0).
Proof.
  apply (strict_validation_failure_throws (form "c1" "abc" "pending") world0).
  vm_compute. reflexivity.
Defined.

(** C8, as stated, fails: for the status ["foo"] the status field carries
    the default message of an enum, not ["Please select an invoice status."]. *)
Lemma unknown_status_gets_default_message :
  let fd := form "c1" "15.00" "foo" in
  get fd "status" <> Some (StringEntry "pending")
  /\ get fd "status" <> Some (StringEntry "paid")
  /\ fst (Actions.createInvoice state0 fd world0) =
       inr {| errors :=
                Some [("status",
                       ["Invalid enum value. Expected 'pending' | 'paid', received 'foo'"])];
              message := Some "Missing Fields. Failed to Create Invoice." |}
  /\ "Invalid enum value. Expected 'pending' | 'paid', received 'foo'"
       <> "Please select an invoice status.".
Proof.
  repeat split; try discriminate; vm_compute; reflexivity.
Qed.

(** C8, amended. A form whose status is not exactly ["pending"] or
    ["paid"] is rejected with one message for the status field: it is
    ["Please select an invoice status."] when the field is absent or is not
    a string, and the default message of an enum, which names the value
    received, when it is another string. *)
Theorem lenient_status_error (prev : State) (id : string) (fd : FormData) (w : World) :
  get fd "status" <> Some (StringEntry "pending") ->
  get fd "status" <> Some (StringEntry "paid") ->
  exists issues,
    safeParse Actions.CreateInvoice (read_form fd) = Zod.INVALID issues
    /\ Zod.field (Zod.fieldErrors issues) "status" = Some [status_message (get fd "status")]
    /\ fst (Actions.createInvoice prev fd w) =
         inr {| errors := Some (Zod.fieldErrors issues);
                message := Some "Missing Fields. Failed to Create Invoice." |}
    /\ fst (Actions.updateInvoice id prev fd w) =
         inr {| errors := Some (Zod.fieldErrors issues);
                message := Some "Missing Fields. Failed to Update Invoice." |}.
Proof.
  intros N1 N2.
  destruct (status_cases (get fd "status")) as [[s [E [[-> | ->] _]]] | [_ [_ [c ES]]]];
    try congruence.
  destruct (safeParse_cases fd) as [[data H] | [issues [H [_ FS]]]].
  - exfalso. revert H. unfold safeParse. cbn [read_form in_status]. rewrite ES.
    destruct (s_customerId _ _ _); destruct (s_amount _ _ _); discriminate.
  - exists issues. split; [exact H |]. split; [exact (FS c _ ES) |].
    rewrite (createInvoice_invalid prev fd w issues H).
    rewrite (updateInvoice_invalid prev id fd w issues H).
    split; reflexivity.
Qed.

Lemma lenient_status_error_witness :
  exists issues,
    safeParse Actions.CreateInvoice (read_form (form "c1" "15.00" "foo")) = Zod.INVALID issues
    /\ Zod.field (Zod.fieldErrors issues) "status" =
         Some [status_message (get (form "c1" "15.00" "foo") "status")]
    /\ fst (Actions.createInvoice state0 (form "c1" "15.00" "foo") world0) =
         inr {| errors := Some (Zod.fieldErrors issues);
                message := Some "Missing Fields. Failed to Create Invoice." |}
    /\ fst (Actions.updateInvoice "inv-9" state0 (form "c1" "15.00" "foo") world0) =
         inr {| errors := Some (Zod.fieldErrors issues);
                message := Some "Missing Fields. Failed to Update Invoice." |}.
Proof.
  apply (lenient_status_error state0 "inv-9" (form "c1" "15.00" "foo") world0);
    discriminate.
Defined.

(** * Further properties *)

(** ** Which forms the schemas accept *)

Section Acceptance.

Import Zod.

Lemma string_ok (ite : option string) (p : list string)
    (v : option FormDataEntryValue) (s : string) :
  string_ ite p v = OK s <-> v = Some (StringEntry s).
Proof.
  destruct v as [[s' | f] |]; simpl; split; intros E;
    try discriminate; inversion E; reflexivity.
Qed.

Lemma status_values (s : string) :
  existsb (String.eqb s) ["pending"; "paid"] = true <-> s = "pending" \/ s = "paid".
Proof.
  cbn [existsb]. rewrite !orb_true_iff, !String.eqb_eq.
  split; [intros [E | [E | E]]; [now left | now right | discriminate]
         | intros [E | E]; [now left | right; now left]].
Qed.

Lemma enum_ok (ite : option string) (p : list string)
    (v : option FormDataEntryValue) (s : string) :
  enum ["pending"; "paid"] ite p v = OK s
  <-> v = Some (StringEntry s) /\ (s = "pending" \/ s = "paid").
Proof.
  rewrite <- status_values. unfold enum.
  destruct v as [[s' | f] |].
  - destruct (existsb (String.eqb s') ["pending"; "paid"]) eqn:E; split.
    + intros H; inversion H; subst. auto.
    + intros [H _]; inversion H; subst. reflexivity.
    + discriminate.
    + intros [H E']; inversion H; subst. congruence.
  - split; [discriminate | intros [H _]; discriminate].
  - split; [discriminate | intros [H _]; discriminate].
Qed.

Lemma amount_ok (v : option FormDataEntryValue) (x : number) :
  amount_schema ["amount"] v = OK x
  <-> x = Number v /\ isNaN x = false /\ leb x zero = false.
Proof.
  destruct (amount_cases v) as [[c [m [E B]]] | [E [N L]]]; rewrite E; split.
  - discriminate.
  - intros [-> [N L]]. destruct B; congruence.
  - intros H; inversion H; subst. auto.
  - intros [-> _]. reflexivity.
Qed.

Lemma strict_amount_ok (p : list string) (v : option FormDataEntryValue) (x : number) :
  coerce_number [] p v = OK x <-> x = Number v /\ isNaN x = false.
Proof.
  unfold coerce_number, getParsedType_number.
  destruct (isNaN (Number v)) eqn:N; cbn [flat_map]; split.
  - discriminate.
  - intros [-> N']. congruence.
  - intros H; inversion H; subst. auto.
  - intros [-> _]. reflexivity.
Qed.

(** An object is accepted exactly when each of its three keys is. *)
Lemma safeParse_ok (schema : InvoiceShape) (input : InvoiceInput) (data : InvoiceFields) :
  safeParse schema input = OK data
  <-> s_customerId schema ["customerId"] (in_customerId input) = OK (customerId data)
      /\ s_amount schema ["amount"] (in_amount input) = OK (amount data)
      /\ s_status schema ["status"] (in_status input) = OK (status data).
Proof.
  unfold safeParse.
  destruct (s_customerId schema _ _) as [c | ic];
    destruct (s_amount schema _ _) as [a | ia];
    destruct (s_status schema _ _) as [s | is_];
    (split; [intros H; try discriminate H; inversion H; subst; cbn; auto
            | intros [H1 [H2 H3]]; try discriminate;
              inversion H1; inversion H2; inversion H3; subst;
              destruct data; reflexivity]).
Qed.

Lemma lenient_ok (fd : FormData) (data : InvoiceFields) :
  safeParse Actions.CreateInvoice (read_form fd) = OK data
  <-> get fd "customerId" = Some (StringEntry (customerId data))
      /\ (amount data = Number (get fd "amount")
          /\ isNaN (amount data) = false /\ leb (amount data) zero = false)
      /\ get fd "status" = Some (StringEntry (status data))
      /\ (status data = "pending" \/ status data = "paid").
Proof.
  rewrite safeParse_ok. cbn [read_form in_customerId in_amount in_status].
  change (s_amount Actions.CreateInvoice) with amount_schema.
  cbn [Actions.CreateInvoice omit_id_date s_customerId s_status
       Actions.FormSchema shape_customerId shape_status].
  rewrite string_ok, amount_ok, enum_ok. tauto.
Qed.

Lemma strict_ok (fd : FormData) (data : InvoiceFields) :
  safeParse StrictActions.CreateInvoice (read_form fd) = OK data
  <-> get fd "customerId" = Some (StringEntry (customerId data))
      /\ (amount data = Number (get fd "amount") /\ isNaN (amount data) = false)
      /\ get fd "status" = Some (StringEntry (status data))
      /\ (status data = "pending" \/ status data = "paid").
Proof.
  rewrite safeParse_ok. cbn [read_form in_customerId in_amount in_status].
  cbn [StrictActions.CreateInvoice omit_id_date s_customerId s_status s_amount
       StrictActions.FormSchema shape_customerId shape_status shape_amount].
  rewrite string_ok, strict_amount_ok, enum_ok. tauto.
Qed.

End Acceptance.

Lemma positive_iff_checks (x : number) :
  positive_number x <-> isNaN x = false /\ leb x zero = false.
Proof.
  split; [| intros [N L]; apply positive_of_checks; assumption].
  unfold positive_number, ltb, leb, SFltb, SFleb.
  destruct x as [s | s | | s m e]; simpl; try discriminate;
    destruct s; simpl; intros H; try discriminate; auto.
Qed.

(** X1. The schema with form feedback accepts a form exactly when its
    customer is a string (even an empty one), its amount coerces to a number
    greater than 0 and its status is ["pending"] or ["paid"]; the validated
    fields are then the customer and status as sent and the coerced amount. *)
Theorem lenient_accepts_exactly (fd : FormData) (data : InvoiceFields) :
  safeParse Actions.CreateInvoice (read_form fd) = Zod.OK data
  <-> get fd "customerId" = Some (StringEntry (customerId data))
      /\ amount data = Number (get fd "amount")
      /\ positive_number (amount data)
      /\ get fd "status" = Some (StringEntry (status data))
      /\ (status data = "pending" \/ status data = "paid").
Proof.
  rewrite lenient_ok, positive_iff_checks. tauto.
Qed.

Lemma lenient_accepts_exactly_witness :
  safeParse Actions.CreateInvoice (read_form (form "" "0.5" "paid")) =
    Zod.OK {| customerId := ""; amount := of_decimal false 5 (-1); status := "paid" |}.
Proof.
  apply (lenient_accepts_exactly (form "" "0.5" "paid")
           {| customerId := ""; amount := of_decimal false 5 (-1); status := "paid" |}).
  repeat split; try (vm_compute; reflexivity). right. reflexivity.
Defined.

(** X2. The older schema accepts every form the schema with form feedback
    accepts, with the same fields, and also the forms whose amount is a
    number that is at most 0: of the amount it only asks that it is not NaN. *)
Theorem strict_accepts_more (fd : FormData) (data : InvoiceFields) :
  (safeParse StrictActions.CreateInvoice (read_form fd) = Zod.OK data
   <-> get fd "customerId" = Some (StringEntry (customerId data))
       /\ amount data = Number (get fd "amount")
       /\ isNaN (amount data) = false
       /\ get fd "status" = Some (StringEntry (status data))
       /\ (status data = "pending" \/ status data = "paid"))
  /\ (safeParse Actions.CreateInvoice (read_form fd) = Zod.OK data
      <-> safeParse StrictActions.CreateInvoice (read_form fd) = Zod.OK data
          /\ leb (amount data) zero = false).
Proof.
  rewrite lenient_ok, strict_ok. tauto.
Qed.

Lemma strict_accepts_more_witness :
  safeParse StrictActions.CreateInvoice (read_form (form "c1" "-5" "paid")) =
    Zod.OK {| customerId := "c1"; amount := of_Z (-5); status := "paid" |}
  /\ safeParse Actions.CreateInvoice (read_form (form "c1" "-5" "paid")) <>
       Zod.OK {| customerId := "c1"; amount := of_Z (-5); status := "paid" |}.
Proof.
  destruct (strict_accepts_more (form "c1" "-5" "paid")
              {| customerId := "c1"; amount := of_Z (-5); status := "paid" |}) as [S L].
  split.
  - apply S. repeat split; try (vm_compute; reflexivity). right. reflexivity.
  - intros H. apply L in H. destruct H as [_ H]. vm_compute in H. discriminate.
Defined.

(** ** The error object of a rejected form *)

Section ErrorObject.

Import Zod.

Lemma field_push (k' m : string) (o : FieldErrors) (k : string) :
  field (push k' m o) k =
    if String.eqb k' k
    then Some (match field o k with Some a => a ++ [m] | None => [m] end)%list
    else field o k.
Proof.
  induction o as [| [k0 msgs] o IH]; simpl.
  - destruct (String.eqb k' k); reflexivity.
  - destruct (String.eqb_spec k0 k') as [-> | N]; simpl.
    + destruct (String.eqb k' k); reflexivity.
    + destruct (String.eqb_spec k0 k) as [-> | N'].
      * destruct (String.eqb_spec k' k) as [-> | _]; [congruence | reflexivity].
      * exact IH.
Qed.

Lemma field_fold (issues : list ZodIssue) (acc : FieldErrors) (k : string) :
  field (fold_left (fun acc i => match path i with
                                 | [] => acc
                                 | k' :: _ => push k' (message i) acc
                                 end) issues acc) k =
    match field acc k, messages_under k issues with
    | None, [] => None
    | None, l => Some l
    | Some a, l => Some (a ++ l)%list
    end.
Proof.
  revert acc. unfold messages_under.
  induction issues as [| i issues IH]; intros acc; simpl.
  - destruct (field acc k); [rewrite app_nil_r |]; reflexivity.
  - rewrite IH. destruct (path i) as [| k' rest].
    + reflexivity.
    + rewrite field_push. destruct (String.eqb k' k); simpl; [| reflexivity].
      destruct (field acc k); simpl; [rewrite <- app_assoc |]; reflexivity.
Qed.

End ErrorObject.

(** X3. [flatten().fieldErrors] groups the messages of the issues by the
    first element of their path and keeps their order: the entry of a key is
    the list of the messages filed under it, and a key without issue has no
    entry. *)
Theorem fieldErrors_groups_messages (issues : list Zod.ZodIssue) (k : string) :
  Zod.field (Zod.fieldErrors issues) k =
    match messages_under k issues with
    | [] => None
    | l => Some l
    end.
Proof.
  unfold Zod.fieldErrors. rewrite field_fold. reflexivity.
Qed.

(** X4. The error object that [createInvoice] and [updateInvoice] return
    for a rejected form has an entry for each field that failed and for no
    other key: the customer message when the customer is absent or a file,
    the NaN or the greater-than-0 message for the amount, and the status
    message. *)
Theorem rejected_form_errors (prev : State) (id : string) (fd : FormData) (w : World)
    (issues : list Zod.ZodIssue) :
  safeParse Actions.CreateInvoice (read_form fd) = Zod.INVALID issues ->
  Zod.field (Zod.fieldErrors issues) "customerId" = customer_errors (get fd "customerId")
  /\ Zod.field (Zod.fieldErrors issues) "amount" = amount_errors (get fd "amount")
  /\ Zod.field (Zod.fieldErrors issues) "status" = status_errors (get fd "status")
  /\ (forall k, k <> "customerId" -> k <> "amount" -> k <> "status" ->
                Zod.field (Zod.fieldErrors issues) k = None)
  /\ fst (Actions.createInvoice prev fd w) =
       inr {| errors := Some (Zod.fieldErrors issues);
              message := Some "Missing Fields. Failed to Create Invoice." |}
  /\ fst (Actions.updateInvoice id prev fd w) =
       inr {| errors := Some (Zod.fieldErrors issues);
              message := Some "Missing Fields. Failed to Update Invoice." |}.
Proof.
  intros H.
  rewrite (createInvoice_invalid prev fd w issues H).
  rewrite (updateInvoice_invalid prev id fd w issues H).
  cut (Zod.field (Zod.fieldErrors issues) "customerId" = customer_errors (get fd "customerId")
       /\ Zod.field (Zod.fieldErrors issues) "amount" = amount_errors (get fd "amount")
       /\ Zod.field (Zod.fieldErrors issues) "status" = status_errors (get fd "status")
       /\ (forall k, k <> "customerId" -> k <> "amount" -> k <> "status" ->
                     Zod.field (Zod.fieldErrors issues) k = None)).
  { intros [A [B [C D]]]. repeat split; assumption. }
  revert H. unfold safeParse, amount_errors, status_errors.
  cbn [read_form in_customerId in_amount in_status].
  change (s_amount Actions.CreateInvoice) with amount_schema.
  cbn [Actions.CreateInvoice omit_id_date s_customerId s_status
       Actions.FormSchema shape_customerId shape_status].
  destruct (isNaN (Number (get fd "amount"))) eqn:N;
    [rewrite (amount_nan _ N)
    | destruct (leb (Number (get fd "amount")) zero) eqn:L;
      [rewrite (amount_too_small _ N L) | rewrite (amount_accepted _ N L)]];
    (destruct (get fd "customerId") as [[c | f] |]; cbn [Zod.string_ customer_errors]);
    (destruct (get fd "status") as [[s | f'] |]; cbn [Zod.enum];
     [destruct (existsb (String.eqb s) ["pending"; "paid"]) | |]);
    intros H; try discriminate H; inversion H; subst issues;
    (split; [reflexivity |]); (split; [reflexivity |]); (split; [reflexivity |]);
    intros k N1 N2 N3;
    assert (E1 : String.eqb "customerId" k = false) by (apply String.eqb_neq; congruence);
    assert (E2 : String.eqb "amount" k = false) by (apply String.eqb_neq; congruence);
    assert (E3 : String.eqb "status" k = false) by (apply String.eqb_neq; congruence);
    unfold Zod.fieldErrors; rewrite field_fold; unfold messages_under;
    cbn [Zod.issues_of app filter Zod.path Zod.message map Zod.field];
    rewrite ?E1, ?E2, ?E3; reflexivity.
Qed.

Lemma rejected_form_errors_witness :
  Zod.field
    (Zod.fieldErrors
       [{| Zod.code := Zod.invalid_type; Zod.path := ["customerId"];
           Zod.message := "Please select a customer." |}]) "customerId" =
    customer_errors (get [("amount", StringEntry "15.00"); ("status", StringEntry "paid")] "customerId").
Proof.
  assert (H : safeParse Actions.CreateInvoice
                (read_form [("amount", StringEntry "15.00"); ("status", StringEntry "paid")]) =
              Zod.INVALID [{| Zod.code := Zod.invalid_type; Zod.path := ["customerId"];
                              Zod.message := "Please select a customer." |}])
    by (vm_compute; reflexivity).
  destruct (rejected_form_errors state0 "inv-9" _ world0 _ H) as [C _].
  exact C.
Defined.

(** X5. A rejected form has no effect beyond the console: [updateInvoice]
    leaves the world exactly as it was, [createInvoice] only logs the
    result of the validation; nothing is sent to the database, the cache
    or the router, and neither action throws. *)
Theorem rejection_has_no_effect (prev : State) (id : string) (fd : FormData) (w : World)
    (issues : list Zod.ZodIssue) :
  safeParse Actions.CreateInvoice (read_form fd) = Zod.INVALID issues ->
  snd (Actions.updateInvoice id prev fd w) = w
  /\ snd (Actions.createInvoice prev fd w) =
       emit (EvConsoleLog "validatedFields: " (Zod.INVALID issues)) w
  /\ (exists st, fst (Actions.createInvoice prev fd w) = inr st)
  /\ (exists st, fst (Actions.updateInvoice id prev fd w) = inr st).
Proof.
  intros H.
  rewrite (createInvoice_invalid prev fd w issues H).
  rewrite (updateInvoice_invalid prev id fd w issues H).
  repeat split; eexists; reflexivity.
Qed.

Lemma rejection_has_no_effect_witness :
  snd (Actions.updateInvoice "inv-9" state0 (form "c1" "abc" "paid") world0) = world0.
Proof.
  assert (H : safeParse Actions.CreateInvoice (read_form (form "c1" "abc" "paid")) =
              Zod.INVALID [{| Zod.code := Zod.invalid_type; Zod.path := ["amount"];
                              Zod.message := "Expected number, received nan" |}])
    by (vm_compute; reflexivity).
  destruct (rejection_has_no_effect state0 "inv-9" _ world0 _ H) as [U _].
  exact U.
Defined.

(** X6. An amount that is absent, empty or made of white space only
    coerces to 0, so the form is rejected with the greater-than-0 message
    and not with a type error. *)
Theorem blank_amount_is_zero (prev : State) (fd : FormData) (w : World) :
  (get fd "amount" = None
   \/ exists s, get fd "amount" = Some (StringEntry s)
                /\ JsString.trim (JsString.codes s) = []) ->
  Number (get fd "amount") = zero
  /\ exists errs,
       fst (Actions.createInvoice prev fd w) =
         inr {| errors := Some errs;
                message := Some "Missing Fields. Failed to Create Invoice." |}
       /\ Zod.field errs "amount" = Some ["Please enter an amount greater than $0."].
Proof.
  intros B.
  assert (Z : Number (get fd "amount") = zero).
  { destruct B as [-> | [s [-> T]]]; [reflexivity |].
    cbn [Number]. unfold Coercion.StringToNumber. rewrite T. reflexivity. }
  split; [exact Z |].
  assert (E : amount_schema ["amount"] (get fd "amount") =
              Zod.INVALID [{| Zod.code := Zod.too_small; Zod.path := ["amount"];
                              Zod.message := "Please enter an amount greater than $0." |}]).
  { apply amount_too_small; rewrite Z; reflexivity. }
  destruct (safeParse_cases fd) as [[data H] | [issues [H [FA _]]]].
  - exfalso. revert H. unfold safeParse. cbn [read_form in_amount].
    change (s_amount Actions.CreateInvoice) with amount_schema. rewrite E.
    destruct (s_customerId _ _ _); discriminate.
  - exists (Zod.fieldErrors issues).
    rewrite (createInvoice_invalid prev fd w issues H).
    split; [reflexivity | exact (FA _ _ E)].
Qed.

Lemma blank_amount_is_zero_witness :
  Number (get (form "c1" "   " "paid") "amount") = zero.
Proof.
  assert (B : get (form "c1" "   " "paid") "amount" = None
              \/ exists s, get (form "c1" "   " "paid") "amount" = Some (StringEntry s)
                           /\ JsString.trim (JsString.codes s) = []).
  { right. exists "   ". split; reflexivity. }
  destruct (blank_amount_is_zero state0 (form "c1" "   " "paid") world0 B) as [Z _].
  exact Z.
Defined.

(** ** The table *)

Section Table.

Variables (prev : State) (id : string) (fd : FormData) (w : World).


Lemma updateInvoice_frame :
  let w' := snd (Actions.updateInvoice id prev fd w) in
  fails w' = fails w /\ uuid w' = uuid w /\ now_iso w' = now_iso w.
Proof.
  unfold Actions.updateInvoice.
  destruct (safeParse Actions.UpdateInvoice (read_form fd)); run_action;
    [destruct (fails w _) |]; repeat split; reflexivity.
Qed.

Lemma deleteInvoice_frame :
  let w' := snd (Actions.deleteInvoice id w) in
  fails w' = fails w /\ uuid w' = uuid w /\ now_iso w' = now_iso w.
Proof.
  unfold Actions.deleteInvoice. run_action.
  destruct (fails w _); repeat split; reflexivity.
Qed.

Lemma createInvoice_inserted (data : InvoiceFields) :
  safeParse Actions.CreateInvoice (read_form fd) = Zod.OK data ->
  inserted (snd (Actions.createInvoice prev fd w)) =
    if fails w (insert_of w data) then inserted w else S (inserted w).
Proof.
  intros H. unfold Actions.createInvoice. rewrite H. run_action.
  fold (insert_of w data). destruct (fails w (insert_of w data)); reflexivity.
Qed.

Lemma filter_all {A} (f : A -> bool) (l : list A) :
  (forall x, In x l -> f x = true) -> filter f l = l.
Proof.
  induction l as [| a l IH]; intros H; simpl; [reflexivity |].
  rewrite (H a (or_introl eq_refl)). f_equal. apply IH.
  intros x I. apply H. now right.
Qed.

Lemma map_unchanged {A} (f : A -> A) (l : list A) :
  (forall x, In x l -> f x = x) -> map f l = l.
Proof.
  induction l as [| a l IH]; intros H; simpl; [reflexivity |].
  rewrite (H a (or_introl eq_refl)). f_equal. apply IH.
  intros x I. apply H. now right.
Qed.

Lemma update_execute (data : InvoiceFields) (rows : list InvoiceRow) (u : string) :
  execute u (update_of id data) rows = map (updated_row id data) rows.
Proof. reflexivity. Qed.

Lemma updated_row_twice (data : InvoiceFields) (r : InvoiceRow) :
  updated_row id data (updated_row id data r) = updated_row id data r.
Proof.
  unfold updated_row. destruct (String.eqb (row_id r) id) eqn:E; cbn [row_id];
    rewrite E; reflexivity.
Qed.

End Table.

(** X7. When the form is accepted and the statement succeeds,
    [createInvoice] adds exactly one row at the end of the table and leaves
    the others as they were: the row has the identifier the store hands out,
    the customer and status of the form, the coerced amount times 100 and
    the clock's text before its first ["T"] as date. *)
Theorem createInvoice_adds_one_row (prev : State) (fd : FormData) (w : World)
    (data : InvoiceFields) :
  safeParse Actions.CreateInvoice (read_form fd) = Zod.OK data ->
  fails w (insert_of w data) = false ->
  invoices (snd (Actions.createInvoice prev fd w)) = (invoices w ++ [new_row w data])%list
  /\ inserted (snd (Actions.createInvoice prev fd w)) = S (inserted w)
  /\ get fd "customerId" = Some (StringEntry (row_customer_id (new_row w data)))
  /\ get fd "status" = Some (StringEntry (row_status (new_row w data)))
  /\ row_amount (new_row w data) = mul (Number (get fd "amount")) hundred.
Proof.
  intros H F.
  destruct (createInvoice_valid prev fd w data H) as [_ [_ I]].
  pose proof (createInvoice_inserted prev fd w data H) as N.
  rewrite F in I, N.
  apply lenient_ok in H. destruct H as [C [[A _] [S _]]].
  cbn [new_row row_customer_id row_status row_amount]. rewrite <- A.
  repeat split; assumption.
Qed.

Lemma createInvoice_adds_one_row_witness :
  invoices (snd (Actions.createInvoice state0 form0 world0)) =
    (invoices world0 ++ [new_row world0 fields0])%list.
Proof.
  assert (H : safeParse Actions.CreateInvoice (read_form form0) = Zod.OK fields0)
    by (vm_compute; reflexivity).
  assert (F : fails world0 (insert_of world0 fields0) = false) by reflexivity.
  destruct (createInvoice_adds_one_row state0 form0 world0 fields0 H F) as [I _].
  exact I.
Defined.

(** X8. When the form is accepted and the statement succeeds,
    [updateInvoice] rewrites the customer, amount and status of every row
    with the given identifier and nothing else: the rows keep their number
    and order, and a row with another identifier is left as it was. *)
Theorem updateInvoice_rewrites_matching_rows (prev : State) (id : string) (fd : FormData)
    (w : World) (data : InvoiceFields) :
  safeParse Actions.UpdateInvoice (read_form fd) = Zod.OK data ->
  fails w (update_of id data) = false ->
  let after := invoices (snd (Actions.updateInvoice id prev fd w)) in
  List.length after = List.length (invoices w)
  /\ forall n r,
       nth_error (invoices w) n = Some r ->
       exists r',
         nth_error after n = Some r'
         /\ row_id r' = row_id r /\ row_date r' = row_date r
         /\ (row_id r <> id -> r' = r)
         /\ (row_id r = id ->
               row_customer_id r' = customerId data
               /\ row_amount r' = mul (amount data) hundred
               /\ row_status r' = status data).
Proof.
  intros H F after.
  destruct (updateInvoice_valid prev id fd w data H) as [_ [_ I]].
  rewrite F, update_execute in I. subst after. rewrite I.
  split; [apply length_map |].
  intros n r E. exists (updated_row id data r).
  split; [rewrite nth_error_map, E; reflexivity |].
  unfold updated_row.
  destruct (String.eqb_spec (row_id r) id) as [Eq | Ne]; cbn;
    repeat split; try reflexivity; intros; congruence.
Qed.

Lemma updateInvoice_rewrites_matching_rows_witness :
  invoices (snd (Actions.updateInvoice "inv-9" state0 form0 world1)) =
    [{| row_id := "inv-9"; row_customer_id := "c1"; row_amount := of_Z 1500;
        row_status := "pending"; row_date := "2023-12-01" |}; row_1]
  /\ List.length (invoices (snd (Actions.updateInvoice "inv-9" state0 form0 world1))) =
       List.length (invoices world1)
  /\ (exists r',
        nth_error (invoices (snd (Actions.updateInvoice "inv-9" state0 form0 world1))) 0 =
          Some r'
        /\ row_id r' = row_id row_9 /\ row_date r' = row_date row_9
        /\ (row_id row_9 <> "inv-9" -> r' = row_9)
        /\ (row_id row_9 = "inv-9" ->
              row_customer_id r' = customerId fields0
              /\ row_amount r' = mul (amount fields0) hundred
              /\ row_status r' = status fields0))
  /\ (exists r',
        nth_error (invoices (snd (Actions.updateInvoice "inv-9" state0 form0 world1))) 1 =
          Some r'
        /\ row_id r' = row_id row_1 /\ row_date r' = row_date row_1
        /\ (row_id row_1 <> "inv-9" -> r' = row_1)
        /\ (row_id row_1 = "inv-9" ->
              row_customer_id r' = customerId fields0
              /\ row_amount r' = mul (amount fields0) hundred
              /\ row_status r' = status fields0)).
Proof.
  assert (H : safeParse Actions.UpdateInvoice (read_form form0) = Zod.OK fields0)
    by (vm_compute; reflexivity).
  assert (F : fails world1 (update_of "inv-9" fields0) = false) by reflexivity.
  destruct (updateInvoice_rewrites_matching_rows state0 "inv-9" form0 world1 fields0 H F)
    as [L N].
  split; [vm_compute; reflexivity |].
  split; [exact L |].
  split; [exact (N 0%nat row_9 eq_refl) | exact (N 1%nat row_1 eq_refl)].
Defined.

(** X9. [updateInvoice] with an identifier that no row has leaves the
    table as it was and raises no error: the caller is redirected all the
    same, whether the statement succeeded or failed. *)
Theorem updateInvoice_unknown_id (prev : State) (id : string) (fd : FormData)
    (w : World) (data : InvoiceFields) :
  safeParse Actions.UpdateInvoice (read_form fd) = Zod.OK data ->
  (forall r, In r (invoices w) -> row_id r <> id) ->
  invoices (snd (Actions.updateInvoice id prev fd w)) = invoices w
  /\ fst (Actions.updateInvoice id prev fd w) = inl (NEXT_REDIRECT "/dashboard/invoices").
Proof.
  intros H U.
  destruct (updateInvoice_valid prev id fd w data H) as [R [_ I]].
  split; [| exact R]. rewrite I.
  destruct (fails w (update_of id data)); [reflexivity |].
  rewrite update_execute. apply map_unchanged.
  intros r In_r. unfold updated_row.
  destruct (String.eqb_spec (row_id r) id) as [Eq | _]; [| reflexivity].
  exfalso. exact (U r In_r Eq).
Qed.

Lemma updateInvoice_unknown_id_witness :
  invoices (snd (Actions.updateInvoice "inv-404" state0 form0 world1)) = [row_9; row_1]
  /\ fst (Actions.updateInvoice "inv-404" state0 form0 world1) =
       inl (NEXT_REDIRECT "/dashboard/invoices").
Proof.
  assert (H : safeParse Actions.UpdateInvoice (read_form form0) = Zod.OK fields0)
    by (vm_compute; reflexivity).
  assert (U : forall r, In r (invoices world1) -> row_id r <> "inv-404").
  { intros r [<- | [<- | []]]; discriminate. }
  exact (updateInvoice_unknown_id state0 "inv-404" form0 world1 fields0 H U).
Defined.

(** X10. Submitting the same accepted form to [updateInvoice] a second
    time, after a first statement that succeeded, does not change the
    table again. *)
Theorem updateInvoice_twice (prev prev' : State) (id : string) (fd : FormData)
    (w : World) (data : InvoiceFields) :
  safeParse Actions.UpdateInvoice (read_form fd) = Zod.OK data ->
  fails w (update_of id data) = false ->
  let w1 := snd (Actions.updateInvoice id prev fd w) in
  invoices (snd (Actions.updateInvoice id prev' fd w1)) = invoices w1.
Proof.
  intros H F w1.
  destruct (updateInvoice_valid prev' id fd w1 data H) as [_ [_ I2]].
  destruct (updateInvoice_valid prev id fd w data H) as [_ [_ I1]].
  fold w1 in I1. rewrite I2.
  destruct (fails w1 (update_of id data)); [reflexivity |].
  rewrite update_execute, I1, F, update_execute, map_map.
  apply map_ext. intros r. apply updated_row_twice.
Qed.

Lemma updateInvoice_twice_witness :
  invoices (snd (Actions.updateInvoice "inv-0" state0 form0
                   (snd (Actions.updateInvoice "inv-0" state0 form0
                           (snd (Actions.createInvoice state0 (form "c2" "3" "paid") world0)))))) =
    invoices (snd (Actions.updateInvoice "inv-0" state0 form0
                     (snd (Actions.createInvoice state0 (form "c2" "3" "paid") world0)))).
Proof.
  assert (H : safeParse Actions.UpdateInvoice (read_form form0) = Zod.OK fields0)
    by (vm_compute; reflexivity).
  assert (F : fails (snd (Actions.createInvoice state0 (form "c2" "3" "paid") world0))
                (update_of "inv-0" fields0) = false) by (vm_compute; reflexivity).
  exact (updateInvoice_twice state0 state0 "inv-0" form0 _ fields0 H F).
Defined.

(** X11. When the statement succeeds, [deleteInvoice] removes the rows
    with the given identifier and only those: a row is in the table
    afterwards exactly when it was there before under another identifier. *)
Theorem deleteInvoice_removes_matching_rows (id : string) (w : World) :
  fails w (DELETE_FROM_invoices id) = false ->
  forall r,
    In r (invoices (snd (Actions.deleteInvoice id w)))
    <-> In r (invoices w) /\ row_id r <> id.
Proof.
  intros F r.
  destruct (deleteInvoice_run id w) as [_ [_ I]]. rewrite I, F.
  cbn [execute]. rewrite filter_In, negb_true_iff, String.eqb_neq. reflexivity.
Qed.

Lemma deleteInvoice_removes_matching_rows_witness :
  ~ In (new_row world0 fields0)
       (invoices (snd (Actions.deleteInvoice "inv-0"
                         (snd (Actions.createInvoice state0 form0 world0))))).
Proof.
  assert (F : fails (snd (Actions.createInvoice state0 form0 world0))
                (DELETE_FROM_invoices "inv-0") = false) by (vm_compute; reflexivity).
  intros I.
  apply (deleteInvoice_removes_matching_rows "inv-0" _ F) in I.
  destruct I as [_ N]. apply N. reflexivity.
Defined.

(** X12. Deleting the same identifier again is safe: after a delete that
    succeeded, a second [deleteInvoice] leaves the table as it is and
    returns normally, whether the database then executes its statement or
    fails it. *)
Theorem deleteInvoice_twice (id : string) (w : World) (f : Statement -> bool) :
  fails w (DELETE_FROM_invoices id) = false ->
  let w1 := with_store f (snd (Actions.deleteInvoice id w)) in
  invoices (snd (Actions.deleteInvoice id w1)) = invoices w1
  /\ fst (Actions.deleteInvoice id w1) = inr tt.
Proof.
  intros F w1.
  destruct (deleteInvoice_run id w1) as [R [_ I2]].
  destruct (deleteInvoice_run id w) as [_ [_ I1]].
  split; [| exact R]. rewrite I2.
  destruct (fails w1 (DELETE_FROM_invoices id)); [reflexivity |].
  subst w1. cbn [with_store invoices]. rewrite I1, F. cbn [execute]. apply filter_all.
  intros r In_r. apply filter_In in In_r. tauto.
Qed.

Lemma deleteInvoice_twice_witness :
  invoices (snd (Actions.deleteInvoice "inv-9" world1)) = [row_1]
  /\ (invoices (snd (Actions.deleteInvoice "inv-9"
                       (with_store (fun _ => false)
                          (snd (Actions.deleteInvoice "inv-9" world1))))) =
        invoices (with_store (fun _ => false) (snd (Actions.deleteInvoice "inv-9" world1)))
      /\ fst (Actions.deleteInvoice "inv-9"
                (with_store (fun _ => false)
                   (snd (Actions.deleteInvoice "inv-9" world1)))) = inr tt)
  /\ (invoices (snd (Actions.deleteInvoice "inv-9"
                       (with_store (fun _ => true)
                          (snd (Actions.deleteInvoice "inv-9" world1))))) =
        invoices (with_store (fun _ => true) (snd (Actions.deleteInvoice "inv-9" world1)))
      /\ fst (Actions.deleteInvoice "inv-9"
                (with_store (fun _ => true)
                   (snd (Actions.deleteInvoice "inv-9" world1)))) = inr tt).
Proof.
  assert (F : fails world1 (DELETE_FROM_invoices "inv-9") = false) by reflexivity.
  split; [vm_compute; reflexivity |].
  split; [exact (deleteInvoice_twice "inv-9" world1 (fun _ => false) F)
         | exact (deleteInvoice_twice "inv-9" world1 (fun _ => true) F)].
Defined.



(** ** The date of a new row *)

Lemma split_first_prefix (d t : string) :
  no_T d -> JsString.split_first "T" (d ++ String "T" t) = d.
Proof.
  unfold no_T. induction d as [| c d IH]; intros N; simpl.
  - reflexivity.
  - destruct (Ascii.eqb_spec c "T") as [-> | _].
    + exfalso. apply N. simpl. now left.
    + f_equal. apply IH. intros I. apply N. simpl. now right.
Qed.

Lemma split_first_no_T (s : string) : no_T (JsString.split_first "T" s).
Proof.
  unfold no_T. induction s as [| c s IH]; simpl; [tauto |].
  destruct (Ascii.eqb_spec c "T") as [-> | N]; simpl; [tauto |].
  intros [E | I]; [congruence | exact (IH I)].
Qed.

(** X14. The date [createInvoice] sends is the clock's text before its
    first ["T"]: for a clock reading [d ++ "T" ++ t] where [d] has no
    ["T"], as an ISO timestamp does, the statement carries [d]; whatever
    the clock reads, the date sent has no ["T"]. *)
Theorem createInvoice_date (prev : State) (fd : FormData) (w : World)
    (data : InvoiceFields) (d t : string) :
  safeParse Actions.CreateInvoice (read_form fd) = Zod.OK data ->
  now_iso w = d ++ String "T" t ->
  no_T d ->
  statements (trace (snd (Actions.createInvoice prev fd w))) =
    (statements (trace w)
       ++ [INSERT_INTO_invoices (customerId data) (mul (amount data) hundred)
             (status data) d])%list
  /\ no_T (JsString.split_first "T" (now_iso w)).
Proof.
  intros H C N.
  destruct (createInvoice_valid prev fd w data H) as [_ [T _]].
  split; [| apply split_first_no_T].
  rewrite T, !statements_app. clear T.
  unfold insert_of. rewrite C, (split_first_prefix d t N).
  destruct (fails w _); reflexivity.
Qed.

Lemma createInvoice_date_witness :
  statements (trace (snd (Actions.createInvoice state0 form0 world0))) =
    (statements (trace world0)
       ++ [INSERT_INTO_invoices (customerId fields0) (mul (amount fields0) hundred)
             (status fields0) "2024-03-09"])%list.
Proof.
  assert (H : safeParse Actions.CreateInvoice (read_form form0) = Zod.OK fields0)
    by (vm_compute; reflexivity).
  assert (C : now_iso world0 = "2024-03-09" ++ String "T" "10:11:12.000Z") by reflexivity.
  assert (N : no_T "2024-03-09").
  { unfold no_T. simpl. intros I.
    repeat (destruct I as [I | I]; [discriminate I |]). exact I. }
  destruct (createInvoice_date state0 form0 world0 fields0 _ _ H C N) as [S _].
  exact S.
Defined.

(** ** The older action *)

(** X15. The older [createInvoice], for a form its schema accepts: when
    the statement succeeds it adds the new row, invalidates the cache and
    redirects; when the statement fails the error is thrown to the caller
    and nothing else happens, the table is unchanged, nothing is logged,
    the cache is not invalidated and there is no redirect. *)
Theorem strict_createInvoice_run (fd : FormData) (w : World) (data : InvoiceFields) :
  safeParse StrictActions.CreateInvoice (read_form fd) = Zod.OK data ->
  let r := StrictActions.createInvoice fd w in
  if fails w (insert_of w data)
  then fst r = inl DatabaseError
       /\ trace (snd r) = (trace w ++ [EvSql (insert_of w data)])%list
       /\ invoices (snd r) = invoices w
  else fst r = inl (NEXT_REDIRECT "/dashboard/invoices")
       /\ trace (snd r) =
            (trace w ++ [EvSql (insert_of w data);
                         EvRevalidatePath "/dashboard/invoices";
                         EvRedirect "/dashboard/invoices"])%list
       /\ invoices (snd r) = (invoices w ++ [new_row w data])%list.
Proof.
  intros H r.
  destruct (strict_createInvoice_valid fd w data H) as [B G].
  destruct (fails w (insert_of w data)); [apply B | apply G]; reflexivity.
Qed.

Lemma strict_createInvoice_run_witness :
  fst (StrictActions.createInvoice form0 world_down) = inl DatabaseError
  /\ trace (snd (StrictActions.createInvoice form0 world_down)) =
       (trace world_down ++ [EvSql (insert_of world_down fields0)])%list
  /\ invoices (snd (StrictActions.createInvoice form0 world_down)) = invoices world_down.
Proof.
  assert (H : safeParse StrictActions.CreateInvoice (read_form form0) = Zod.OK fields0)
    by (vm_compute; reflexivity).
  exact (strict_createInvoice_run form0 world_down fields0 H).
Defined.

(** ** The amount sent is a number *)

Section NotNaN.

Lemma shr_fexp_nonneg (m e : Z) (l : location) :
  0 <= m -> 0 <= shr_m (fst (shr_fexp prec emax m e l)).
Proof.
  intros Hm. unfold shr_fexp, shr.
  destruct (fexp prec emax (Zdigits2 m + e) - e) as [| p | p]; cbn [fst];
    try (rewrite shr_m_of_loc; exact Hm).
  apply iter_shr_1. rewrite shr_m_of_loc. exact Hm.
Qed.

Lemma round_nearest_even_nonneg (m : Z) (l : location) :
  0 <= m -> 0 <= round_nearest_even m l.
Proof.
  intros Hm. destruct l as [| c]; simpl; [exact Hm |].
  destruct c; [destruct (Z.even m) | |]; lia.
Qed.

Lemma binary_round_aux_not_nan (sx : bool) (mx ex : Z) (lx : location) :
  0 <= mx -> isNaN (binary_round_aux prec emax sx mx ex lx) = false.
Proof.
  intros Hm. unfold binary_round_aux.
  pose proof (shr_fexp_nonneg mx ex lx Hm) as P1.
  destruct (shr_fexp prec emax mx ex lx) as [r1 e1]. cbn [fst] in P1.
  pose proof (round_nearest_even_nonneg _ (loc_of_shr_record r1) P1) as P2.
  pose proof (shr_fexp_nonneg _ e1 loc_Exact P2) as P3.
  destruct (shr_fexp prec emax _ e1 loc_Exact) as [r2 e2]. cbn [fst] in P3.
  destruct (shr_m r2) as [| q | q]; [reflexivity | | lia].
  destruct (e2 <=? emax - prec); reflexivity.
Qed.

Lemma mul_hundred_not_nan (x : number) :
  isNaN x = false -> isNaN (mul x hundred) = false.
Proof.
  destruct x as [s | s | | s m e]; simpl; try reflexivity; try discriminate.
  intros _. apply binary_round_aux_not_nan. lia.
Qed.

End NotNaN.

(** X16. No action ever sends NaN as an amount: both schemas reject an
    amount that coerces to NaN, and the product of a number and 100 is a
    number. Every statement that [createInvoice], [updateInvoice] or the
    older [createInvoice] adds to the calls carries an amount that is not
    NaN. *)
Theorem amount_sent_is_not_NaN (prev : State) (id : string) (fd : FormData) (w : World)
    (st : Statement) :
  In st (statements (trace (snd (Actions.createInvoice prev fd w))))
  \/ In st (statements (trace (snd (Actions.updateInvoice id prev fd w))))
  \/ In st (statements (trace (snd (StrictActions.createInvoice fd w)))) ->
  In st (statements (trace w))
  \/ exists x, statement_amount st = Some x /\ isNaN x = false.
Proof.
  intros [I | [I | I]].
  - destruct (safeParse Actions.CreateInvoice (read_form fd)) as [data | issues] eqn:H.
    + destruct (createInvoice_valid prev fd w data H) as [_ [T _]].
      rewrite T, !statements_app in I. apply in_app_iff in I.
      destruct I as [I | I]; [now left |]. right.
      assert (st = insert_of w data) as ->.
      { destruct (fails w (insert_of w data)); simpl in I;
          destruct I as [E | []]; symmetry; exact E. }
      eexists. split; [reflexivity |].
      apply mul_hundred_not_nan. apply lenient_ok in H. tauto.
    + rewrite (createInvoice_invalid prev fd w issues H) in I.
      cbn [snd emit trace] in I. rewrite statements_app, app_nil_r in I. now left.
  - destruct (safeParse Actions.UpdateInvoice (read_form fd)) as [data | issues] eqn:H.
    + destruct (updateInvoice_valid prev id fd w data H) as [_ [T _]].
      rewrite T, !statements_app in I. apply in_app_iff in I.
      destruct I as [I | I]; [now left |]. right.
      assert (st = update_of id data) as ->.
      { destruct (fails w (update_of id data)); simpl in I;
          destruct I as [E | []]; symmetry; exact E. }
      eexists. split; [reflexivity |].
      apply mul_hundred_not_nan. apply lenient_ok in H. tauto.
    + rewrite (updateInvoice_invalid prev id fd w issues H) in I. now left.
  - destruct (safeParse StrictActions.CreateInvoice (read_form fd)) as [data | issues] eqn:H.
    + destruct (strict_createInvoice_valid fd w data H) as [B G].
      assert (In st (statements (trace w ++ [EvSql (insert_of w data)]))) as I'.
      { destruct (fails w (insert_of w data)).
        - destruct (B eq_refl) as [_ [T _]]. rewrite T in I. exact I.
        - destruct (G eq_refl) as [_ [T _]]. rewrite T, statements_app in I.
          rewrite statements_app. exact I. }
      rewrite statements_app in I'. apply in_app_iff in I'.
      destruct I' as [I' | [<- | []]]; [now left |]. right.
      eexists. split; [reflexivity |].
      apply mul_hundred_not_nan. apply strict_ok in H. tauto.
    + rewrite (strict_createInvoice_invalid fd w issues H) in I. now left.
Qed.

Lemma amount_sent_is_not_NaN_witness :
  In (insert_of world0 fields0) (statements (trace world0))
  \/ exists x, statement_amount (insert_of world0 fields0) = Some x /\ isNaN x = false.
Proof.
  apply (amount_sent_is_not_NaN state0 "inv-9" form0 world0).
  left. vm_compute. left. reflexivity.
Defined.
